(** * whisperx-service: the transcription endpoint and the service registrar

    A shallow embedding of [scripts/whisperx-service.py].  Python values are
    modelled as follows:

    - [str] is a list of Unicode code points ([pystr]), so that [len] counts
      characters and [strip] removes exactly the characters [str.isspace]
      accepts;
    - [float] is IEEE-754 binary64, through the executable specification
      [spec_float] of the Standard Library;
    - [int] is [Z];
    - the dictionaries the handler builds are insertion-ordered association
      lists inside [pyval];
    - exceptions are values: an [HTTPException] raised by the handler, or a
      [PyException] raised by a library call;
    - the outside world (file system, downloader, engine, registry) is a
      record of oracles, [Externals]; every call to one of them is recorded
      in the [trace] of the [World];
    - [shutil.rmtree(..., ignore_errors=True)] removes the paths of the tree
      whose removal does not fail, and which removals fail is an oracle;
    - the lines [register_service] prints go to a standard output that may
      refuse them, an oracle too; the log lines of the request handler and
      of [get_model] are taken as written.

    The handlers are sequential: signals and task cancellation, which are
    not instances of [Exception], are outside the model. *)

From Stdlib Require Import Ascii String.
From Stdlib Require Import ZArith NArith List Bool Lia.
From Stdlib Require Import DecimalString.
From Stdlib Require Import Floats.SpecFloat.
Import ListNotations.

Local Open Scope Z_scope.

(* ------------------------------------------------------------------ *)
(** ** Strings *)

Module PyStr.

Definition pystr := list N.

(** A literal: the code points of an ASCII string. *)
Definition py (s : string) : pystr := map N_of_ascii (list_ascii_of_string s).

Fixpoint pystr_eqb (a b : pystr) : bool :=
  match a, b with
  | [], [] => true
  | x :: a', y :: b' => N.eqb x y && pystr_eqb a' b'
  | _, _ => false
  end.

(** [len(s)] *)
Definition len (s : pystr) : Z := Z.of_nat (length s).

(** Truthiness of a [str]: the empty string is false. *)
Definition truthy (s : pystr) : bool :=
  match s with [] => false | _ :: _ => true end.

(** [s[:n]] for a non-negative [n]. *)
Definition slice_to (n : nat) (s : pystr) : pystr := firstn n s.

(** The characters [str.strip()] removes: those for which [str.isspace] holds. *)
Definition isspace (c : N) : bool :=
  ((9 <=? c) && (c <=? 13) || (28 <=? c) && (c <=? 32)
   || (c =? 133) || (c =? 160) || (c =? 5760)
   || (8192 <=? c) && (c <=? 8202)
   || (c =? 8232) || (c =? 8233) || (c =? 8239) || (c =? 8287) || (c =? 12288))%N.

Fixpoint lstrip (s : pystr) : pystr :=
  match s with
  | [] => []
  | c :: r => if isspace c then lstrip r else s
  end.

Definition rstrip (s : pystr) : pystr := rev (lstrip (rev s)).

(** [s.strip()] *)
Definition strip (s : pystr) : pystr := lstrip (rstrip s).

(** [s.startswith(p)] *)
Fixpoint startswith (p s : pystr) : bool :=
  match p, s with
  | [], _ => true
  | _ :: _, [] => false
  | a :: p', b :: s' => N.eqb a b && startswith p' s'
  end.

(** [s.endswith(p)] *)
Definition endswith (p s : pystr) : bool := startswith (rev p) (rev s).

(** [p in s]: [p] occurs in [s] as a contiguous substring. *)
Fixpoint contains (p s : pystr) : bool :=
  startswith p s || match s with [] => false | _ :: s' => contains p s' end.

(** [str(n)] for an [int]. *)
Definition str_of_int (z : Z) : pystr := py (NilZero.string_of_int (Z.to_int z)).

(** [posixpath.join(a, b)] *)
Definition os_path_join (a b : pystr) : pystr :=
  if startswith (py "/") b then b
  else if negb (truthy a) || endswith (py "/") a then a ++ b
  else a ++ py "/" ++ b.

End PyStr.
Export PyStr.

(* ------------------------------------------------------------------ *)
(** ** Exceptions and outcomes *)

(** An exception raised by a library call: its class name and [str(e)]. *)
Record PyException := mkExc { exc_class : pystr ; exc_str : pystr }.

(** What a handler can raise: [fastapi.HTTPException(status_code, detail)],
    or any other instance of [Exception]. *)
Inductive exn :=
| HTTPException (status_code : Z) (detail : pystr)
| Exception (e : PyException).

(** [str(e)] *)
Definition exn_str (e : exn) : pystr :=
  match e with
  | HTTPException s d => str_of_int s ++ py ": " ++ d
  | Exception e' => exc_str e'
  end.

Inductive outcome (A : Type) :=
| Return (a : A)
| Raise (e : exn).
Arguments Return {A} a.
Arguments Raise {A} e.

(* ------------------------------------------------------------------ *)
(** ** Floats *)

Module PyFloat.

Definition prec : Z := 53.
Definition emax : Z := 1024.

Definition float := spec_float.

(** [float(z)] for an [int] that converts exactly or by rounding to nearest. *)
Definition of_int (z : Z) : float := binary_normalize prec emax z 0 false.

(** [x - y] and [x * y] *)
Definition sub (x y : float) : float := SFsub prec emax x y.
Definition mul (x y : float) : float := SFmul prec emax x y.

(** The integer nearest to [m * 2^e * scale], ties to even ([m], [scale] > 0). *)
Definition scaled_nearest_even (m : positive) (e : Z) (scale : Z) : Z :=
  match e with
  | Zneg p =>
      let num := Zpos m * scale in
      let den := Z.shiftl 1 (Zpos p) in
      let q := num / den in
      let r := num mod den in
      match 2 * r ?= den with
      | Lt => q
      | Gt => q + 1
      | Eq => if Z.even q then q else q + 1
      end
  | _ => Z.shiftl (Zpos m) e * scale
  end.

(** The float nearest to [n / d] ([n], [d] > 0), with sign [s]. *)
Definition nearest_ratio (s : bool) (n d : positive) : float :=
  SFdiv prec emax (S754_finite s n 0) (S754_finite false d 0).

(** [round(x, ndigits)] for [ndigits >= 0]: the decimal value nearest to [x]
    with [ndigits] digits after the point (ties to even), read back as the
    nearest float.  Not-a-number and the infinities round to themselves, and
    so does every float when [ndigits] exceeds 323. *)
Definition round (x : float) (ndigits : N) : float :=
  match x with
  | S754_finite s m e =>
      if (323 <? ndigits)%N then x
      else
        let scale := 10 ^ Z.of_N ndigits in
        match scaled_nearest_even m e scale with
        | Zpos n => nearest_ratio s n (Z.to_pos scale)
        | _ => S754_zero s
        end
  | _ => x
  end.

(** [int(x)]: truncation towards zero; raises on not-a-number and infinities. *)
Definition to_int (x : float) : outcome Z :=
  match x with
  | S754_nan =>
      Raise (Exception (mkExc (py "ValueError") (py "cannot convert float NaN to integer")))
  | S754_infinity _ =>
      Raise (Exception (mkExc (py "OverflowError") (py "cannot convert float infinity to integer")))
  | S754_zero _ => Return 0
  | S754_finite s m e =>
      Return (cond_Zopp s (match e with
                           | Zneg p => Z.shiftr (Zpos m) (Zpos p)
                           | _ => Z.shiftl (Zpos m) e
                           end))
  end.

(** [f"{x:.0f}"] *)
Definition format_f0 (x : float) : pystr :=
  match x with
  | S754_nan => py "nan"
  | S754_infinity s => (if s then py "-" else []) ++ py "inf"
  | S754_zero s => (if s then py "-" else []) ++ py "0"
  | S754_finite s m e =>
      (if s then py "-" else []) ++ str_of_int (scaled_nearest_even m e 1)
  end.

(** The float a decimal literal [n / 10^k] denotes ([n >= 0]). *)
Definition lit (n : Z) (k : N) : float :=
  match n with
  | Zpos p => nearest_ratio false p (Z.to_pos (10 ^ Z.of_N k))
  | _ => S754_zero false
  end.

End PyFloat.

(* ------------------------------------------------------------------ *)
(** ** Values *)

(** The JSON-compatible values the handler returns.  A [dict] keeps its keys
    in insertion order. *)
#[warnings="-register-all"]
Inductive pyval :=
| VStr (s : pystr)
| VInt (z : Z)
| VFloat (x : PyFloat.float)
| VList (l : list pyval)
| VDict (d : list (pystr * pyval)).

(** [d[k]], [None] when the key is absent. *)
Fixpoint dict_get (k : pystr) (d : list (pystr * pyval)) : option pyval :=
  match d with
  | [] => None
  | (k', v) :: r => if pystr_eqb k k' then Some v else dict_get k r
  end.

(** [k in d] *)
Definition dict_has (k : pystr) (d : list (pystr * pyval)) : bool :=
  match dict_get k d with Some _ => true | None => false end.

(** [d[k] = v]: replaces the value of an existing key, appends a new one. *)
Fixpoint dict_set (k : pystr) (v : pyval) (d : list (pystr * pyval)) : list (pystr * pyval) :=
  match d with
  | [] => [(k, v)]
  | (k', v') :: r => if pystr_eqb k k' then (k', v) :: r else (k', v') :: dict_set k v r
  end.

(** What the engine yields: the fields of [faster_whisper]'s [Word] and
    [Segment] that the handler reads. *)
Record Word := mkWord { word : pystr ; w_start : PyFloat.float }.

Record Segment := mkSegment {
  text : pystr ;
  start : PyFloat.float ;
  end_ : PyFloat.float ;
  words : option (list Word)
}.

Record TranscriptionInfo := mkInfo { duration : PyFloat.float }.

(** The lazy segment stream: a finite, single-pass sequence that either ends
    or raises while it is being consumed. *)
Inductive generator :=
| GStop
| GRaise (e : PyException)
| GYield (s : Segment) (rest : generator).

(** [subprocess.CompletedProcess], with [capture_output=True, text=True]. *)
Record CompletedProcess := mkProc {
  returncode : Z ;
  stdout : pystr ;
  stderr : pystr
}.

Record WhisperModel := mkModel {
  model_size : pystr ;
  device : pystr ;
  compute_type : pystr
}.

(** [urllib.request.Request] *)
Record Request := mkRequest {
  full_url : pystr ;
  data : list N ;
  headers : list (pystr * pystr) ;
  method : pystr
}.

Record TranscribeRequest := mkReq { video_id : pystr }.

(* ------------------------------------------------------------------ *)
(** ** The world *)

(** The file system: the paths that exist. *)
Definition FS := list pystr.

Definition path_exists (p : pystr) (fs : FS) : bool := existsb (pystr_eqb p) fs.

(** [q] is [p] or lies below it. *)
Definition in_tree (p q : pystr) : bool :=
  pystr_eqb p q || startswith (p ++ py "/") q.

(** [shutil.rmtree(p, ignore_errors=True)]: every path of the tree of [p] is
    removed, except those whose removal fails ([stuck]); with
    [ignore_errors=True] such a failure is swallowed and the path stays.
    Nothing outside the tree is touched, and the call never raises. *)
Definition rmtree_fs (stuck : pystr -> bool) (p : pystr) (fs : FS) : FS :=
  filter (fun q => negb (in_tree p q) || stuck q) fs.

(** One entry per call that leaves the process. *)
Inductive event :=
| Mkdtemp (dir prefix : pystr)
| SubprocessRun (argv : list pystr) (timeout : Z)
| Glob (pattern : pystr)
| Getsize (path : pystr)
| ImportFasterWhisper
| LoadModel (size dev compute : pystr)
| ModelTranscribe (m : WhisperModel) (audio : pystr) (beam_size : Z)
                  (word_timestamps : bool) (language : pystr)
| Print (msg : pystr)
| Rmtree (path : pystr)
| Urlopen (req : Request) (timeout : Z).

Record World := mkWorld {
  fs : FS ;
  _model : option WhisperModel ;      (* the module global *)
  trace : list event                  (* oldest call first *)
}.

Definition log (ev : event) (w : World) : World :=
  mkWorld (fs w) (_model w) (trace w ++ [ev]).

Definition with_fs (f : FS) (w : World) : World :=
  mkWorld f (_model w) (trace w).

Definition set_model (m : WhisperModel) (w : World) : World :=
  mkWorld (fs w) (Some m) (trace w).

(** The answer of a library call: a value, or an exception. *)
Inductive reply (A : Type) :=
| Ok (a : A)
| Fails (e : PyException).
Arguments Ok {A} a.
Arguments Fails {A} e.

(* ------------------------------------------------------------------ *)
(** ** The monad of handlers: state and exceptions *)

Definition M (A : Type) := World -> outcome A * World.

Definition ret {A} (a : A) : M A := fun w => (Return a, w).

Definition raise {A} (e : exn) : M A := fun w => (Raise e, w).

Definition bind {A B} (m : M A) (k : A -> M B) : M B :=
  fun w =>
    match m w with
    | (Return a, w') => k a w'
    | (Raise e, w') => (Raise e, w')
    end.

(** A pure computation that may raise. *)
Definition lift {A} (o : outcome A) : M A := fun w => (o, w).

(** A library call: logged, then answered by its oracle, which may change the
    file system. *)
Definition call {A} (ev : event) (oracle : FS -> reply A * FS) : M A :=
  fun w =>
    let w1 := log ev w in
    match oracle (fs w1) with
    | (Ok a, f) => (Return a, with_fs f w1)
    | (Fails e, f) => (Raise (Exception e), with_fs f w1)
    end.

(** [try: body / except ...: handler / finally: final] *)
Definition try_except_finally {A} (body : M A) (handler : exn -> M A) (final : M unit) : M A :=
  fun w =>
    let '(r, w2) :=
      match body w with
      | (Return a, w1) => (Return a, w1)
      | (Raise e, w1) => handler e w1
      end in
    match final w2 with
    | (Return _, w3) => (r, w3)
    | (Raise e, w3) => (Raise e, w3)
    end.

(** [try: body / except Exception as e: handler(e)] *)
Definition try_except {A} (body : M A) (handler : exn -> M A) : M A :=
  try_except_finally body handler (ret tt).

Declare Scope py_scope.
Delimit Scope py_scope with py.
Notation "x <- m ;; k" := (bind m (fun x => k))
  (at level 61, m at next level, right associativity) : py_scope.
Notation "m ;; k" := (bind m (fun _ => k))
  (at level 61, right associativity) : py_scope.
Notation "' p <- m ;; k" := (bind m (fun x => let p := x in k))
  (at level 61, p pattern, m at next level, right associativity) : py_scope.
Local Open Scope py_scope.

(** [print(msg)] on a standard output that takes the line: the log lines of
    the request handler and of [get_model].  The lines of [register_service]
    are printed with [print_checked], which keeps the failure of the write. *)
Definition print (msg : pystr) : M unit :=
  fun w => (Return tt, log (Print msg) w).

(* ------------------------------------------------------------------ *)
(** ** Shaping the engine's output (the body of the [for] loop) *)

(** Truthiness of [s.words]: [None] and the empty list are false. *)
Definition words_truthy (ws : option (list Word)) : bool :=
  match ws with
  | Some (_ :: _) => true
  | _ => false
  end.

(** [{"text": w.word.strip(), "startMs": int(w.start * 1000)}] *)
Definition shape_word (w : Word) : outcome pyval :=
  match PyFloat.to_int (PyFloat.mul (w_start w) (PyFloat.of_int 1000)) with
  | Return ms => Return (VDict [(py "text", VStr (strip (word w))); (py "startMs", VInt ms)])
  | Raise e => Raise e
  end.

(** [[shape_word(w) for w in ws if w.word.strip()]] *)
Fixpoint shape_words (ws : list Word) : outcome (list pyval) :=
  match ws with
  | [] => Return []
  | w :: rest =>
      if truthy (strip (word w)) then
        match shape_word w with
        | Raise e => Raise e
        | Return d =>
            match shape_words rest with
            | Raise e => Raise e
            | Return l => Return (d :: l)
            end
        end
      else shape_words rest
  end.

(** One iteration of the loop: the [seg] that is appended. *)
Definition shape_segment (s : Segment) : outcome pyval :=
  let seg := [ (py "text", VStr (strip (text s)));
               (py "offset", VFloat (PyFloat.round (start s) 3));
               (py "duration", VFloat (PyFloat.round (PyFloat.sub (end_ s) (start s)) 3)) ] in
  if words_truthy (words s) then
    match shape_words (match words s with Some ws => ws | None => [] end) with
    | Raise e => Raise e
    | Return l => Return (VDict (dict_set (py "words") (VList l) seg))
    end
  else Return (VDict seg).

(** [for s in segs_gen: ... segments.append(seg)], started with the list
    [segments]. *)
Fixpoint consume (g : generator) (segments : list pyval) : outcome (list pyval) :=
  match g with
  | GStop => Return segments
  | GRaise e => Raise (Exception e)
  | GYield s rest =>
      match shape_segment s with
      | Raise e => Raise e
      | Return seg => consume rest (segments ++ [seg])
      end
  end.

(* ------------------------------------------------------------------ *)
(** ** The service *)

(** *** The outside world

    Every library call the service makes that leaves the process is an
    oracle.  An oracle sees the file system and may change it. *)
Record Externals := mkExternals {
  sys_executable : pystr ;
  (** [tempfile.mkdtemp(dir=, prefix=)]: the path of the new directory. *)
  tempfile_mkdtemp : pystr -> pystr -> FS -> reply pystr * FS ;
  (** [subprocess.run(argv, capture_output=True, text=True, timeout=)] *)
  subprocess_run : list pystr -> Z -> FS -> reply CompletedProcess * FS ;
  (** [glob.glob(pattern)] *)
  glob_glob : pystr -> FS -> reply (list pystr) * FS ;
  (** [os.path.getsize(path)] *)
  os_path_getsize : pystr -> FS -> reply Z * FS ;
  (** [from faster_whisper import WhisperModel] *)
  import_faster_whisper : FS -> reply unit * FS ;
  (** [WhisperModel(size, device=, compute_type=)] *)
  WhisperModel_init : pystr -> pystr -> pystr -> FS -> reply WhisperModel * FS ;
  (** [model.transcribe(audio, beam_size=, word_timestamps=, language=)] *)
  model_transcribe :
    WhisperModel -> pystr -> Z -> bool -> pystr -> FS
    -> reply (generator * TranscriptionInfo) * FS ;
  (** [os.environ.get(name)] and [os.uname().nodename] *)
  os_environ_get : pystr -> option pystr ;
  nodename : pystr ;
  (** [json.dumps(v).encode()] *)
  json_dumps_encode : pyval -> list N ;
  (** [Request(url, data=, headers=, method=)]: the constructor rejects a
      URL without a scheme. *)
  Request_init : pystr -> list N -> list (pystr * pystr) -> pystr -> reply Request ;
  (** [urlopen(req, timeout=)] *)
  urlopen : Request -> Z -> FS -> reply unit * FS ;
  (** Which removals fail inside [shutil.rmtree(root, ignore_errors=True)]:
      the root, the file system at the call, the path. *)
  rmtree_stuck : pystr -> FS -> pystr -> bool ;
  (** Writing a line to the standard output: the exception it raises, if
      any (a character the stream cannot encode, a closed stream). *)
  stdout_write : pystr -> option PyException
}.

Section Service.

Variable ext : Externals.

(** [shutil.rmtree(p, ignore_errors=True)] *)
Definition rmtree (p : pystr) : M unit :=
  fun w =>
    (Return tt,
     with_fs (rmtree_fs (rmtree_stuck ext p (fs w)) p (fs w)) (log (Rmtree p) w)).

(** [print(msg)], with its failure: the write to the standard output may
    raise. *)
Definition print_checked (msg : pystr) : M unit :=
  fun w =>
    match stdout_write ext msg with
    | None => (Return tt, log (Print msg) w)
    | Some e => (Raise (Exception e), log (Print msg) w)
    end.

(** *** [get_model] *)

Definition get_model : M WhisperModel :=
  fun w =>
    match _model w with
    | Some m => (Return m, w)
    | None =>
        (call ImportFasterWhisper (import_faster_whisper ext) ;;
         print (py "[whisperx] Loading model on GPU...") ;;
         m <- call (LoadModel (py "large-v3") (py "cuda") (py "float16"))
                   (WhisperModel_init ext (py "large-v3") (py "cuda") (py "float16")) ;;
         (fun w' => (Return tt, set_model m w')) ;;
         print (py "[whisperx] Model ready.") ;;
         ret m) w
    end.

(** *** [POST /transcribe] *)

Definition ytdlp_argv (outpath vid : pystr) : list pystr :=
  [ sys_executable ext; py "-m"; py "yt_dlp";
    py "-f"; py "bestaudio[ext=webm]/bestaudio";
    py "--no-playlist"; py "--no-warnings";
    py "-o"; outpath;
    py "https://www.youtube.com/watch?v=" ++ vid ].

(** The body of the [try] block. *)
Definition transcribe_body (vid tmpdir : pystr) : M pyval :=
  let outpath := os_path_join tmpdir (py "audio.%(ext)s") in
  r <- call (SubprocessRun (ytdlp_argv outpath vid) 120)
            (subprocess_run ext (ytdlp_argv outpath vid) 120) ;;
  if negb (returncode r =? 0) then
    raise (HTTPException 502 (py "Audio download failed: " ++ slice_to 300 (stderr r)))
  else
    files <- call (Glob (os_path_join tmpdir (py "audio.*")))
                  (glob_glob ext (os_path_join tmpdir (py "audio.*"))) ;;
    match files with
    | [] =>
        raise (HTTPException 502 (py "No audio file found. stdout: " ++ slice_to 200 (stdout r)))
    | audio_path :: _ =>
        fsize <- call (Getsize audio_path) (os_path_getsize ext audio_path) ;;
        if fsize <? 1000 then
          raise (HTTPException 502 (py "Audio too small (" ++ str_of_int fsize ++ py " bytes)"))
        else
          print (py "[whisperx] " ++ vid ++ py ": downloaded " ++ str_of_int fsize
                 ++ py " bytes to " ++ audio_path) ;;
          model <- get_model ;;
          ' (segs_gen, info) <-
            call (ModelTranscribe model audio_path 5 true (py "en"))
                 (model_transcribe ext model audio_path 5 true (py "en")) ;;
          segments <- lift (consume segs_gen []) ;;
          print (py "[whisperx] " ++ vid ++ py ": " ++ str_of_int (Z.of_nat (length segments))
                 ++ py " segments, " ++ PyFloat.format_f0 (duration info) ++ py "s audio") ;;
          ret (VDict [ (py "segments", VList segments);
                       (py "duration", VFloat (duration info)) ])
    end.

(** The two [except] clauses, tried in order. *)
Definition transcribe_except (e : exn) : M pyval :=
  match e with
  | HTTPException _ _ => raise e
  | Exception _ => raise (HTTPException 500 (exn_str e))
  end.

Definition transcribe (req : TranscribeRequest) : M pyval :=
  let vid := video_id req in
  if negb (truthy vid) || negb (len vid =? 11) then
    raise (HTTPException 400 (py "Invalid video_id"))
  else
    tmpdir <- call (Mkdtemp (py "/tmp") (py "whisperx-"))
                   (tempfile_mkdtemp ext (py "/tmp") (py "whisperx-")) ;;
    try_except_finally
      (transcribe_body vid tmpdir)
      transcribe_except
      (rmtree tmpdir).

(** *** [GET /health] *)

Definition health : M pyval :=
  ret (VDict [ (py "status", VStr (py "ok")); (py "model", VStr (py "large-v3")) ]).

(** *** Service registration *)

(** Truthiness of what [os.environ.get] returns. *)
Definition env_truthy (v : option pystr) : bool :=
  match v with
  | Some s => truthy s
  | None => false
  end.

Definition env_value (v : option pystr) : pystr :=
  match v with Some s => s | None => [] end.

(** The [Request(...)] expression of the [try] block. *)
Definition registry_request (url key : pystr) : reply Request :=
  let service_url := py "http://" ++ nodename ext ++ py ":8765" in
  let data := json_dumps_encode ext
                (VDict [ (py "service_name", VStr (py "whisperx"));
                         (py "url", VStr service_url);
                         (py "updated_at", VStr (py "now()")) ]) in
  Request_init ext
    (url ++ py "/rest/v1/service_registry")
    data
    [ (py "apikey", key);
      (py "Authorization", py "Bearer " ++ key);
      (py "Content-Type", py "application/json");
      (py "Prefer", py "resolution=merge-duplicates") ]
    (py "POST").

Definition skipping_msg : pystr :=
  py "[whisperx] No Supabase env vars " ++ [8212%N] ++ py " skipping service registration".

Definition register_service : M unit :=
  let url := os_environ_get ext (py "NEXT_PUBLIC_SUPABASE_URL") in
  let key := os_environ_get ext (py "SUPABASE_SERVICE_ROLE_KEY") in
  if negb (env_truthy url) || negb (env_truthy key) then
    print_checked skipping_msg ;;
    ret tt
  else
    let url := env_value url in
    let key := env_value key in
    let service_url := py "http://" ++ nodename ext ++ py ":8765" in
    try_except
      (req <- lift (match registry_request url key with
                    | Ok r => Return r
                    | Fails e => Raise (Exception e)
                    end) ;;
       call (Urlopen req 5) (urlopen ext req 5) ;;
       print_checked
         (py "[whisperx] Registered as '" ++ service_url ++ py "' in service_registry"))
      (fun e => print_checked (py "[whisperx] Registration failed: " ++ exn_str e)).

(** [@app.on_event("startup")] *)
Definition startup : M unit :=
  get_model ;;
  register_service.

End Service.

(* ------------------------------------------------------------------ *)
(** ** Test doubles

    The stubbed fetcher and engine of the end-to-end example: the identifier
    ["dQw4w9WgXcQ"], a 50 KB audio file, and one segment
    [(start=0.0, end=1.234, text=" Hello world ",
      words=[(word="Hello ", start=0.0), (word=" ", start=0.5)])]. *)

Module Stub.

Definition tmp : pystr := py "/tmp/whisperx-k3j2x9ab".
Definition audio : pystr := py "/tmp/whisperx-k3j2x9ab/audio.webm".

Definition mkdtemp_ok (d p : pystr) (f : FS) : reply pystr * FS :=
  (Ok (os_path_join d (p ++ py "k3j2x9ab")), os_path_join d (p ++ py "k3j2x9ab") :: f).

Definition enospc : PyException :=
  mkExc (py "OSError") (py "[Errno 28] No space left on device").

Definition mkdtemp_fails (d p : pystr) (f : FS) : reply pystr * FS :=
  (Fails enospc, f).

(** A downloader that writes the audio file and exits with [rc]. *)
Definition run_writes (rc : Z) (err : pystr) (argv : list pystr) (t : Z) (f : FS)
  : reply CompletedProcess * FS :=
  (Ok (mkProc rc [] err), audio :: f).

Definition run_times_out (argv : list pystr) (t : Z) (f : FS)
  : reply CompletedProcess * FS :=
  (Fails (mkExc (py "TimeoutExpired") (py "Command timed out after 120 seconds")), audio :: f).

(** The paths that start with the pattern up to its final star. *)
Definition glob_prefix (pat : pystr) (f : FS) : reply (list pystr) * FS :=
  (Ok (filter (startswith (removelast pat)) f), f).

Definition getsize_const (n : Z) (p : pystr) (f : FS) : reply Z * FS := (Ok n, f).

Definition import_ok (f : FS) : reply unit * FS := (Ok tt, f).

Definition init_ok (size dev compute : pystr) (f : FS) : reply WhisperModel * FS :=
  (Ok (mkModel size dev compute), f).

Definition hello : Segment :=
  mkSegment (py " Hello world ") (PyFloat.lit 0 0) (PyFloat.lit 1234 3)
            (Some [ mkWord (py "Hello ") (PyFloat.lit 0 0);
                    mkWord (py " ") (PyFloat.lit 5 1) ]).

(** A segment whose words are all blank, and one without word data. *)
Definition blanks : Segment :=
  mkSegment (py " ... ") (PyFloat.lit 1234 3) (PyFloat.lit 25 1)
            (Some [ mkWord (py " ") (PyFloat.lit 1234 3);
                    mkWord (py "  ") (PyFloat.lit 2 0) ]).

Definition bare : Segment :=
  mkSegment (py "mm") (PyFloat.lit 25 1) (PyFloat.lit 3 0) None.

Definition engine_yields (g : generator) (total : PyFloat.float)
  (m : WhisperModel) (a : pystr) (beam : Z) (wt : bool) (lang : pystr) (f : FS)
  : reply (generator * TranscriptionInfo) * FS :=
  (Ok (g, mkInfo total), f).

Definition environ_empty (name : pystr) : option pystr := None.


Definition dumps_none (v : pyval) : list N := [].

Definition request_ok (url : pystr) (d : list N) (h : list (pystr * pystr)) (m : pystr)
  : reply Request := Ok (mkRequest url d h m).

Definition urlopen_ok (r : Request) (t : Z) (f : FS) : reply unit * FS := (Ok tt, f).


(** Every removal succeeds; every line is written. *)
Definition rmtree_ok (root : pystr) (f : FS) (q : pystr) : bool := false.
Definition stdout_ok (line : pystr) : option PyException := None.

(** No removal succeeds: the tree stays as it is. *)
Definition rmtree_denied (root : pystr) (f : FS) (q : pystr) : bool := true.



(** Everything works: the end-to-end example. *)
Definition happy (g : generator) : Externals :=
  mkExternals (py "/usr/bin/python3") mkdtemp_ok (run_writes 0 []) glob_prefix
              (getsize_const 51200) import_ok init_ok
              (engine_yields g (PyFloat.lit 1234 3))
              environ_empty (py "gpu-box") dumps_none request_ok urlopen_ok
              rmtree_ok stdout_ok.

(** The downloader exits with status 1. *)
Definition download_fails : Externals :=
  mkExternals (py "/usr/bin/python3") mkdtemp_ok
              (run_writes 1 (py "ERROR: [youtube] dQw4w9WgXcQ: Video unavailable"))
              glob_prefix (getsize_const 51200) import_ok init_ok
              (engine_yields GStop (PyFloat.lit 0 0))
              environ_empty (py "gpu-box") dumps_none request_ok urlopen_ok
              rmtree_ok stdout_ok.

(** The downloader leaves a file of 212 bytes. *)
Definition tiny_audio : Externals :=
  mkExternals (py "/usr/bin/python3") mkdtemp_ok (run_writes 0 []) glob_prefix
              (getsize_const 212) import_ok init_ok
              (engine_yields GStop (PyFloat.lit 0 0))
              environ_empty (py "gpu-box") dumps_none request_ok urlopen_ok
              rmtree_ok stdout_ok.

(** The downloader runs into its timeout. *)
Definition download_times_out : Externals :=
  mkExternals (py "/usr/bin/python3") mkdtemp_ok run_times_out glob_prefix
              (getsize_const 51200) import_ok init_ok
              (engine_yields GStop (PyFloat.lit 0 0))
              environ_empty (py "gpu-box") dumps_none request_ok urlopen_ok
              rmtree_ok stdout_ok.

(** The temp directory cannot be created. *)
Definition disk_full : Externals :=
  mkExternals (py "/usr/bin/python3") mkdtemp_fails (run_writes 0 []) glob_prefix
              (getsize_const 51200) import_ok init_ok
              (engine_yields GStop (PyFloat.lit 0 0))
              environ_empty (py "gpu-box") dumps_none request_ok urlopen_ok
              rmtree_ok stdout_ok.


(** The temp directory cannot be removed. *)
Definition removal_denied : Externals :=
  mkExternals (py "/usr/bin/python3") mkdtemp_ok (run_writes 0 []) glob_prefix
              (getsize_const 51200) import_ok init_ok
              (engine_yields (GYield hello GStop) (PyFloat.lit 1234 3))
              environ_empty (py "gpu-box") dumps_none request_ok urlopen_ok
              rmtree_denied stdout_ok.


Definition req : TranscribeRequest := mkReq (py "dQw4w9WgXcQ").

(** A fresh process: nothing under [/tmp], no model loaded, nothing called. *)
Definition w0 : World := mkWorld [py "/tmp"] None [].

End Stub.

(* ------------------------------------------------------------------ *)
(** ** Observations on a run *)

(** Neither not-a-number nor an infinity. *)
Definition float_is_finite (x : PyFloat.float) : bool :=
  match x with
  | S754_zero _ | S754_finite _ _ _ => true
  | _ => false
  end.

(** A value the framework can render as JSON: its encoder refuses
    not-a-number and the infinities. *)
Fixpoint json_compliant (v : pyval) : bool :=
  match v with
  | VStr _ | VInt _ => true
  | VFloat x => float_is_finite x
  | VList l => forallb json_compliant l
  | VDict d => forallb (fun kv => json_compliant (snd kv)) d
  end.

(** How the framework answers for a handler: a returned body that renders as
    JSON is served with status 200; an [HTTPException] is served with its own
    status and its detail; any other exception, among them the one of a
    body that does not render, as a bare 500. *)
Definition http_response (o : outcome pyval) : Z * pyval :=
  match o with
  | Return body =>
      if json_compliant body then (200, body)
      else (500, VStr (py "Internal Server Error"))
  | Raise (HTTPException status_code detail) =>
      (status_code, VDict [ (py "detail", VStr detail) ])
  | Raise (Exception _) => (500, VStr (py "Internal Server Error"))
  end.

(** The calls that reach the transcription engine: importing it, loading the
    model, decoding. *)
Definition is_engine_call (ev : event) : bool :=
  match ev with
  | ImportFasterWhisper | LoadModel _ _ _ | ModelTranscribe _ _ _ _ _ => true
  | _ => false
  end.

Definition engine_calls (tr : list event) : list event := filter is_engine_call tr.

(** [p] is an initial part of [s]. *)
Definition is_prefix (p s : pystr) : Prop := exists rest, s = p ++ rest.

(** The segments a stream yields before it ends or raises. *)
Fixpoint yielded (g : generator) : list Segment :=
  match g with
  | GYield s rest => s :: yielded rest
  | _ => []
  end.

(** The engine was called during the run that ended in [w'], and answered
    with the stream [g] and the metadata [info]. *)
Definition engine_produced (ext : Externals) (w' : World)
  (g : generator) (info : TranscriptionInfo) : Prop :=
  exists (m : WhisperModel) (audio_path : pystr) (f f' : FS),
    In (ModelTranscribe m audio_path 5 true (py "en")) (trace w')
    /\ model_transcribe ext m audio_path 5 true (py "en") f = (Ok (g, info), f').

(** The three keys every output segment has. *)
Definition segment_fields (s : Segment) (seg : pyval) : Prop :=
  exists d,
    seg = VDict d
    /\ dict_get (py "text") d = Some (VStr (strip (text s)))
    /\ dict_get (py "offset") d = Some (VFloat (PyFloat.round (start s) 3))
    /\ dict_get (py "duration") d
       = Some (VFloat (PyFloat.round (PyFloat.sub (end_ s) (start s)) 3)).

(** A word whose text does not trim to the empty string. *)
Definition nonblank (w : Word) : bool := truthy (strip (word w)).

(** The output word [v] comes from the engine word [w]. *)
Definition word_shaped (w : Word) (v : pyval) : Prop :=
  exists ms,
    v = VDict [ (py "text", VStr (strip (word w))); (py "startMs", VInt ms) ]
    /\ strip (word w) <> []
    /\ PyFloat.to_int (PyFloat.mul (w_start w) (PyFloat.of_int 1000)) = Return ms.

(** The ["words"] list of the output segment [seg], when it has one, holds
    the non-blank words of [s] in order, each one shaped. *)
Definition segment_words (s : Segment) (seg : pyval) : Prop :=
  forall d l,
    seg = VDict d ->
    dict_get (py "words") d = Some (VList l) ->
    exists ws,
      words s = Some ws
      /\ Forall2 word_shaped (filter nonblank ws) l
      /\ (length l <= length ws)%nat.

(** The presence of the ["words"] key follows the raw word data. *)
Definition segment_words_key (s : Segment) (seg : pyval) : Prop :=
  exists d,
    seg = VDict d
    /\ (words_truthy (words s) = false -> dict_has (py "words") d = false)
    /\ (forall ws,
          words s = Some ws -> ws <> [] ->
          Forall (fun w => strip (word w) = []) ws ->
          dict_get (py "words") d = Some (VList [])).


(** *** Expected responses of the test doubles *)

Module Expected.

(** Three segments: one with a word and a blank, one with blanks only, one
    without word data. *)
Definition mixed : generator :=
  GYield Stub.hello (GYield Stub.blanks (GYield Stub.bare GStop)).

Definition hello_seg : pyval :=
  VDict [ (py "text", VStr (py "Hello world"));
          (py "offset", VFloat (PyFloat.lit 0 0));
          (py "duration", VFloat (PyFloat.lit 1234 3));
          (py "words",
           VList [ VDict [ (py "text", VStr (py "Hello")); (py "startMs", VInt 0) ] ]) ].

Definition blanks_seg : pyval :=
  VDict [ (py "text", VStr (py "..."));
          (py "offset", VFloat (PyFloat.lit 1234 3));
          (py "duration", VFloat (PyFloat.lit 1266 3));
          (py "words", VList []) ].

Definition bare_seg : pyval :=
  VDict [ (py "text", VStr (py "mm"));
          (py "offset", VFloat (PyFloat.lit 25 1));
          (py "duration", VFloat (PyFloat.lit 5 1)) ].

Definition body (segs : list pyval) : pyval :=
  VDict [ (py "segments", VList segs);
          (py "duration", VFloat (PyFloat.lit 1234 3)) ].

Definition final (g : generator) : World :=
  snd (transcribe (Stub.happy g) Stub.req Stub.w0).

End Expected.

(* ------------------------------------------------------------------ *)
(** ** Further observations *)

(** How many calls of a kind a trace holds. *)
Definition count_calls (p : event -> bool) (tr : list event) : nat :=
  length (filter p tr).

Definition is_mkdtemp (ev : event) : bool :=
  match ev with Mkdtemp _ _ => true | _ => false end.

Definition is_download (ev : event) : bool :=
  match ev with SubprocessRun _ _ => true | _ => false end.

Definition is_decode (ev : event) : bool :=
  match ev with ModelTranscribe _ _ _ _ _ => true | _ => false end.

(** Importing the engine and constructing the model. *)
Definition is_load (ev : event) : bool :=
  match ev with ImportFasterWhisper | LoadModel _ _ _ => true | _ => false end.

Definition is_rmtree (ev : event) : bool :=
  match ev with Rmtree _ => true | _ => false end.

Definition is_urlopen (ev : event) : bool :=
  match ev with Urlopen _ _ => true | _ => false end.

(** The exception a stream raises at its end, if it raises. *)
Fixpoint stream_error (g : generator) : option PyException :=
  match g with
  | GStop => None
  | GRaise e => Some e
  | GYield _ rest => stream_error rest
  end.

(** A zero of either sign, or a positive finite float. *)
Definition float_nonneg (x : PyFloat.float) : bool :=
  match x with
  | S754_zero _ | S754_finite false _ _ => true
  | _ => false
  end.

(** No whitespace at the start, respectively at the end. *)
Definition starts_clean (s : pystr) : bool :=
  match s with
  | [] => true
  | c :: _ => negb (isspace c)
  end.

Definition ends_clean (s : pystr) : bool := starts_clean (rev s).

(** Every string of a shaped segment: its text and the texts of its words. *)
Definition word_text (v : pyval) : list pystr :=
  match v with
  | VDict d => match dict_get (py "text") d with Some (VStr t) => [t] | _ => [] end
  | _ => []
  end.

Definition segment_texts (seg : pyval) : list pystr :=
  match seg with
  | VDict d =>
      match dict_get (py "text") d with Some (VStr t) => [t] | _ => [] end
      ++ match dict_get (py "words") d with
         | Some (VList l) => flat_map word_text l
         | _ => []
         end
  | _ => []
  end.

(** *** More test doubles *)

Module Stub2.

(** A downloader that exits with status 0 and writes nothing. *)
Definition run_silent (out : pystr) (argv : list pystr) (t : Z) (f : FS)
  : reply CompletedProcess * FS :=
  (Ok (mkProc 0 out []), f).

Definition no_file : Externals :=
  mkExternals (py "/usr/bin/python3") Stub.mkdtemp_ok
              (run_silent (py "[download] 100%")) Stub.glob_prefix
              (Stub.getsize_const 51200) Stub.import_ok Stub.init_ok
              (Stub.engine_yields GStop (PyFloat.lit 0 0))
              Stub.environ_empty (py "gpu-box") Stub.dumps_none Stub.request_ok
              Stub.urlopen_ok
              Stub.rmtree_ok Stub.stdout_ok.





Definition large_v3 : WhisperModel := mkModel (py "large-v3") (py "cuda") (py "float16").

(** A process whose model is loaded. *)
Definition warm : World := mkWorld [py "/tmp"] (Some large_v3) [].

Definition decode_error : PyException :=
  mkExc (py "RuntimeError") (py "Decoder failed").

(** A stream that yields one segment and then raises. *)
Definition broken : generator := GYield Stub.hello (GRaise decode_error).

Definition nan_word : Word := mkWord (py "uh") S754_nan.
Definition blank_nan_word : Word := mkWord (py " ") S754_nan.

End Stub2.

(* ------------------------------------------------------------------ *)
(** ** Facts about strings and paths *)

Lemma pystr_eqb_refl (a : pystr) : pystr_eqb a a = true.
Proof.
  induction a as [|x a IH]; simpl; [reflexivity|].
  now rewrite N.eqb_refl, IH.
Qed.

Lemma pystr_eqb_eq (a b : pystr) : pystr_eqb a b = true <-> a = b.
Proof.
  split; [|intros ->; apply pystr_eqb_refl].
  revert b; induction a as [|x a IH]; destruct b as [|y b]; simpl; try discriminate; auto.
  intros H; apply andb_true_iff in H as [Hx Hr].
  apply N.eqb_eq in Hx; apply IH in Hr; congruence.
Qed.

Lemma startswith_app (p r : pystr) : startswith p (p ++ r) = true.
Proof.
  induction p as [|x p IH]; simpl; [reflexivity|].
  now rewrite N.eqb_refl, IH.
Qed.

Lemma contains_app (p a b : pystr) : contains p (a ++ p ++ b) = true.
Proof.
  induction a as [|x a IH]; simpl.
  - destruct (p ++ b) eqn:E; simpl; rewrite <- E, startswith_app; reflexivity.
  - rewrite IH; apply orb_true_r.
Qed.

Lemma slice_to_prefix (n : nat) (s : pystr) : is_prefix (slice_to n s) s.
Proof. exists (skipn n s); unfold slice_to; symmetry; apply firstn_skipn. Qed.

Lemma slice_to_length (n : nat) (s : pystr) : (length (slice_to n s) <= n)%nat.
Proof. apply firstn_le_length. Qed.

Lemma path_exists_rmtree_fs (stuck : pystr -> bool) (p : pystr) (f : FS) :
  stuck p = false -> path_exists p (rmtree_fs stuck p f) = false.
Proof.
  intros Hs. unfold path_exists, rmtree_fs, in_tree.
  induction f as [|q f IH]; simpl; [reflexivity|].
  destruct (pystr_eqb p q) eqn:E; simpl.
  - apply pystr_eqb_eq in E. subst q. rewrite Hs. exact IH.
  - destruct (negb (startswith (p ++ py "/") q) || stuck q); simpl; [|exact IH].
    now rewrite E, IH.
Qed.

(** A path whose removal fails stays. *)
Lemma path_exists_rmtree_fs_stuck (stuck : pystr -> bool) (p q : pystr) (f : FS) :
  stuck q = true -> path_exists q (rmtree_fs stuck p f) = path_exists q f.
Proof.
  intros Hs. unfold path_exists, rmtree_fs.
  induction f as [|a f IH]; [reflexivity|].
  cbn [filter existsb].
  destruct (pystr_eqb q a) eqn:Hqa.
  - apply pystr_eqb_eq in Hqa. subst a. rewrite Hs, orb_true_r.
    cbn [existsb]. now rewrite pystr_eqb_refl.
  - destruct (negb (in_tree p a) || stuck a).
    + cbn [existsb]. now rewrite Hqa, IH.
    + exact IH.
Qed.

Lemma len_11_truthy (s : pystr) : len s = 11 -> truthy s = true.
Proof. destruct s; [discriminate|reflexivity]. Qed.

Lemma engine_calls_app (a b : list event) :
  engine_calls (a ++ b) = engine_calls a ++ engine_calls b.
Proof. apply filter_app. Qed.

(* ------------------------------------------------------------------ *)
(** ** Facts about floats *)

(** [int(x)] truncates towards zero: for a finite [x = (-1)^s * m * 2^e] it
    is the quotient, rounded towards zero, of the exact value. *)
Lemma to_int_truncates (s : bool) (m : positive) (e : Z) :
  PyFloat.to_int (S754_finite s m e)
  = Return (Z.quot (cond_Zopp s (Zpos m * 2 ^ Z.max e 0)) (2 ^ Z.max (- e) 0)).
Proof.
  unfold PyFloat.to_int. f_equal.
  destruct e as [|p|p].
  - simpl Z.max. rewrite Z.pow_0_r, Z.mul_1_r, Z.quot_1_r. reflexivity.
  - rewrite Z.max_l, Z.max_r by lia.
    rewrite Z.pow_0_r, Z.quot_1_r, Z.shiftl_mul_pow2 by lia. reflexivity.
  - rewrite Z.max_r, Z.max_l by lia.
    rewrite Z.pow_0_r, Z.mul_1_r.
    change (- Z.neg p) with (Z.pos p).
    rewrite Z.shiftr_div_pow2 by lia.
    assert (Hp : 0 < 2 ^ Z.pos p) by (apply Z.pow_pos_nonneg; lia).
    destruct s; unfold cond_Zopp.
    + rewrite Z.quot_opp_l by lia. rewrite Z.quot_div_nonneg by lia. reflexivity.
    + rewrite Z.quot_div_nonneg by lia. reflexivity.
Qed.

(** Rounding goes through the decimal value: ties go to the even digit, and
    the float of [2.675] lies below the tie. *)
Example round_half_even :
  PyFloat.round (PyFloat.lit 625 4) 3 = PyFloat.lit 62 3
  /\ PyFloat.round (PyFloat.lit 25 1) 0 = PyFloat.lit 2 0
  /\ PyFloat.round (PyFloat.lit 2675 3) 2 = PyFloat.lit 267 2.
Proof. vm_compute. repeat split. Qed.

(** The product is the float product: [1.001 * 1000] is just below [1001]
    and [int] truncates it to [1000], while [0.29 * 1000] is [290.0]. *)
Example startMs_truncates :
  PyFloat.to_int (PyFloat.mul (PyFloat.lit 1001 3) (PyFloat.of_int 1000)) = Return 1000
  /\ PyFloat.to_int (PyFloat.mul (PyFloat.lit 5 1) (PyFloat.of_int 1000)) = Return 500
  /\ PyFloat.to_int (PyFloat.mul (PyFloat.lit 29 2) (PyFloat.of_int 1000)) = Return 290.
Proof. vm_compute. repeat split. Qed.

(* ------------------------------------------------------------------ *)
(** ** Properties of [POST /transcribe] *)

Ltac unfold_handler :=
  unfold transcribe, transcribe_body, transcribe_except, try_except_finally,
    bind, call, raise, ret, lift, rmtree, print.

Section Validation.

Variable ext : Externals.

(** C1.  A request whose [video_id] is not exactly 11 characters long (the
    empty string included) is answered with [HTTPException(400, "Invalid
    video_id")] and the world is left as it was: the trace gains no call (no
    temp directory, no downloader, no engine) and the file system is
    unchanged. *)
Theorem invalid_id_rejected (req : TranscribeRequest) (w : World) :
  len (video_id req) <> 11 ->
  transcribe ext req w = (Raise (HTTPException 400 (py "Invalid video_id")), w).
Proof.
  intros H. unfold transcribe.
  apply Z.eqb_neq in H. rewrite H.
  rewrite orb_true_r. reflexivity.
Qed.

End Validation.

Lemma invalid_id_rejected_witness :
  transcribe (Stub.happy GStop) (mkReq []) Stub.w0
  = (Raise (HTTPException 400 (py "Invalid video_id")), Stub.w0)
  /\ transcribe (Stub.happy GStop) (mkReq (py "dQw4w9WgXcQ0")) Stub.w0
     = (Raise (HTTPException 400 (py "Invalid video_id")), Stub.w0).
Proof.
  split; apply invalid_id_rejected; vm_compute; discriminate.
Defined.

Section Cleanup.

Variable ext : Externals.

(** C2, as the code has it.  Once [mkdtemp] has created the directory
    [tmpdir] for a request, the handler ends, whatever its outcome, with
    [shutil.rmtree(tmpdir, ignore_errors=True)]: it is the last call of the
    trace, made on the file system [f] the [try] block left.  When the
    removal of [tmpdir] does not fail, [tmpdir] does not exist in the final
    file system; when it fails, the error is ignored and [tmpdir] is where it
    was.  This covers the successful return, the 502 of a failed download,
    the 502 of an undersized file and the 500 of any other exception. *)
Theorem tmpdir_removed_on_every_exit
  (req : TranscribeRequest) (w : World) (tmpdir : pystr) (f1 : FS) :
  len (video_id req) = 11 ->
  tempfile_mkdtemp ext (py "/tmp") (py "whisperx-") (fs w) = (Ok tmpdir, f1) ->
  forall (r : outcome pyval) (w' : World),
    transcribe ext req w = (r, w') ->
    (exists tr, trace w' = tr ++ [Rmtree tmpdir])
    /\ exists f,
         fs w' = rmtree_fs (rmtree_stuck ext tmpdir f) tmpdir f
         /\ (rmtree_stuck ext tmpdir f tmpdir = false ->
             path_exists tmpdir (fs w') = false)
         /\ (rmtree_stuck ext tmpdir f tmpdir = true ->
             path_exists tmpdir (fs w') = path_exists tmpdir f).
Proof.
  intros Hlen Hmk r w'.
  unfold transcribe.
  rewrite (len_11_truthy _ Hlen), Hlen. simpl.
  unfold bind at 1, call at 1. simpl. rewrite Hmk.
  unfold try_except_finally.
  assert (Hfin : forall (r2 : outcome pyval) (w2 : World),
             (let '(_, w3) := rmtree ext tmpdir w2 in (r2, w3)) = (r, w') ->
             (exists tr, trace w' = tr ++ [Rmtree tmpdir])
             /\ exists f,
                  fs w' = rmtree_fs (rmtree_stuck ext tmpdir f) tmpdir f
                  /\ (rmtree_stuck ext tmpdir f tmpdir = false ->
                      path_exists tmpdir (fs w') = false)
                  /\ (rmtree_stuck ext tmpdir f tmpdir = true ->
                      path_exists tmpdir (fs w') = path_exists tmpdir f)).
  { intros r2 w2. unfold rmtree. intros [= <- <-]. simpl.
    split; [now exists (trace w2)|].
    exists (fs w2). split; [reflexivity|]. split.
    - apply path_exists_rmtree_fs.
    - apply path_exists_rmtree_fs_stuck. }
  destruct (transcribe_body ext (video_id req) tmpdir _) as [[a|e] w1].
  - intros H. apply (Hfin (Return a) w1). unfold rmtree in *. exact H.
  - destruct (transcribe_except e w1) as [r2 w2] eqn:E2.
    intros H. apply (Hfin r2 w2). unfold rmtree in *. exact H.
Qed.

End Cleanup.

Lemma tmpdir_removed_on_every_exit_witness :
  (exists tr,
     trace (snd (transcribe Stub.download_times_out Stub.req Stub.w0))
     = tr ++ [Rmtree Stub.tmp])
  /\ path_exists Stub.tmp
       (fs (snd (transcribe Stub.download_times_out Stub.req Stub.w0))) = false.
Proof.
  destruct (tmpdir_removed_on_every_exit Stub.download_times_out Stub.req Stub.w0
              Stub.tmp (Stub.tmp :: fs Stub.w0)
              eq_refl eq_refl
              (fst (transcribe Stub.download_times_out Stub.req Stub.w0))
              (snd (transcribe Stub.download_times_out Stub.req Stub.w0)))
    as (Htr & f & _ & Hgone & _).
  - vm_compute. reflexivity.
  - split; [exact Htr|]. apply Hgone. reflexivity.
Defined.

(** C2, as stated, fails when the removal fails: [shutil.rmtree] is called
    with [ignore_errors=True], so a directory that cannot be removed is left
    behind without a word.  Here the request succeeds, [rmtree] is its last
    call, and the temp directory still exists when the handler returns. *)
Lemma tmpdir_survives_failed_removal :
  tempfile_mkdtemp Stub.removal_denied (py "/tmp") (py "whisperx-") (fs Stub.w0)
  = (Ok Stub.tmp, Stub.tmp :: fs Stub.w0)
  /\ fst (transcribe Stub.removal_denied Stub.req Stub.w0)
     = Return (Expected.body [Expected.hello_seg])
  /\ (exists tr,
        trace (snd (transcribe Stub.removal_denied Stub.req Stub.w0))
        = tr ++ [Rmtree Stub.tmp])
  /\ path_exists Stub.tmp (fs (snd (transcribe Stub.removal_denied Stub.req Stub.w0)))
     = true.
Proof.
  split; [reflexivity|]. split; [vm_compute; reflexivity|].
  split; [|vm_compute; reflexivity].
  eexists. vm_compute. match goal with |- ?l = _ => rewrite <- (firstn_skipn 11 l) end.
  reflexivity.
Qed.

(** The four exits: a returned body, the 502 of a failed download, the 502
    of an undersized file, the 500 of a downloader that timed out. *)
Example cleanup_on_each_exit :
  Forall (fun ext =>
            path_exists Stub.tmp (fs (snd (transcribe ext Stub.req Stub.w0))) = false)
    [ Stub.happy (GYield Stub.hello GStop); Stub.download_fails;
      Stub.tiny_audio; Stub.download_times_out ]
  /\ map (fun ext => fst (http_response (fst (transcribe ext Stub.req Stub.w0))))
       [ Stub.happy (GYield Stub.hello GStop); Stub.download_fails;
         Stub.tiny_audio; Stub.download_times_out ]
     = [200; 502; 502; 500].
Proof. split; [repeat constructor | vm_compute; reflexivity]. Qed.

Section FetchErrors.

Variable ext : Externals.

(** C5.  When the downloader exits with a non-zero return code the handler
    raises [HTTPException(502, "Audio download failed: " + stderr[:300])]:
    the message carries a prefix of the error stream of at most 300
    characters.  The only calls of the request are [mkdtemp], the downloader
    and [rmtree]; the engine is not reached. *)
Theorem download_failure_is_502
  (req : TranscribeRequest) (w : World) (tmpdir : pystr) (f1 f2 : FS)
  (r : CompletedProcess) :
  len (video_id req) = 11 ->
  tempfile_mkdtemp ext (py "/tmp") (py "whisperx-") (fs w) = (Ok tmpdir, f1) ->
  subprocess_run ext
    (ytdlp_argv ext (os_path_join tmpdir (py "audio.%(ext)s")) (video_id req)) 120 f1
    = (Ok r, f2) ->
  returncode r <> 0 ->
  exists (p : pystr) (w' : World),
    transcribe ext req w
    = (Raise (HTTPException 502 (py "Audio download failed: " ++ p)), w')
    /\ is_prefix p (stderr r)
    /\ (length p <= 300)%nat
    /\ trace w'
       = trace w
         ++ [ Mkdtemp (py "/tmp") (py "whisperx-");
              SubprocessRun
                (ytdlp_argv ext (os_path_join tmpdir (py "audio.%(ext)s")) (video_id req))
                120;
              Rmtree tmpdir ]
    /\ engine_calls (trace w') = engine_calls (trace w).
Proof.
  intros Hlen Hmk Hrun Hrc.
  exists (slice_to 300 (stderr r)).
  eexists. split; [|split; [apply slice_to_prefix | split; [apply slice_to_length|]]].
  - unfold_handler.
    rewrite (len_11_truthy _ Hlen), Hlen. simpl.
    rewrite Hmk. simpl. rewrite Hrun.
    apply Z.eqb_neq in Hrc. rewrite Hrc. simpl. reflexivity.
  - simpl. rewrite <- !app_assoc. simpl. split; [reflexivity|].
    rewrite engine_calls_app. simpl. apply app_nil_r.
Qed.

(** C6.  When the first file the downloader left is smaller than 1000 bytes
    the handler raises [HTTPException(502, "Audio too small (<n> bytes)")],
    whose message contains the decimal byte count.  The calls of the request
    are [mkdtemp], the downloader, [glob], [getsize] and [rmtree]; the engine
    is not reached. *)
Theorem undersized_audio_is_502
  (req : TranscribeRequest) (w : World) (tmpdir : pystr) (f1 f2 f3 f4 : FS)
  (r : CompletedProcess) (audio_path : pystr) (others : list pystr) (fsize : Z) :
  len (video_id req) = 11 ->
  tempfile_mkdtemp ext (py "/tmp") (py "whisperx-") (fs w) = (Ok tmpdir, f1) ->
  subprocess_run ext
    (ytdlp_argv ext (os_path_join tmpdir (py "audio.%(ext)s")) (video_id req)) 120 f1
    = (Ok r, f2) ->
  returncode r = 0 ->
  glob_glob ext (os_path_join tmpdir (py "audio.*")) f2 = (Ok (audio_path :: others), f3) ->
  os_path_getsize ext audio_path f3 = (Ok fsize, f4) ->
  fsize < 1000 ->
  exists (msg : pystr) (w' : World),
    transcribe ext req w = (Raise (HTTPException 502 msg), w')
    /\ msg = py "Audio too small (" ++ str_of_int fsize ++ py " bytes)"
    /\ contains (str_of_int fsize) msg = true
    /\ trace w'
       = trace w
         ++ [ Mkdtemp (py "/tmp") (py "whisperx-");
              SubprocessRun
                (ytdlp_argv ext (os_path_join tmpdir (py "audio.%(ext)s")) (video_id req))
                120;
              Glob (os_path_join tmpdir (py "audio.*"));
              Getsize audio_path;
              Rmtree tmpdir ]
    /\ engine_calls (trace w') = engine_calls (trace w).
Proof.
  intros Hlen Hmk Hrun Hrc Hglob Hsize Hlt.
  eexists. eexists.
  split; [|split; [reflexivity | split; [apply contains_app|]]].
  - unfold_handler.
    rewrite (len_11_truthy _ Hlen), Hlen. simpl.
    rewrite Hmk. simpl. rewrite Hrun, Hrc. simpl.
    rewrite Hglob. simpl. rewrite Hsize.
    apply Z.ltb_lt in Hlt. rewrite Hlt. simpl. reflexivity.
  - simpl. rewrite <- !app_assoc. simpl. split; [reflexivity|].
    rewrite engine_calls_app. simpl. apply app_nil_r.
Qed.

End FetchErrors.

Lemma download_failure_is_502_witness :
  exists (p : pystr) (w' : World),
    transcribe Stub.download_fails Stub.req Stub.w0
    = (Raise (HTTPException 502 (py "Audio download failed: " ++ p)), w')
    /\ is_prefix p (py "ERROR: [youtube] dQw4w9WgXcQ: Video unavailable")
    /\ (length p <= 300)%nat
    /\ trace w'
       = [ Mkdtemp (py "/tmp") (py "whisperx-");
           SubprocessRun
             (ytdlp_argv Stub.download_fails
                (os_path_join Stub.tmp (py "audio.%(ext)s")) (video_id Stub.req))
             120;
           Rmtree Stub.tmp ]
    /\ engine_calls (trace w') = [].
Proof.
  apply (download_failure_is_502 Stub.download_fails Stub.req Stub.w0
           Stub.tmp (Stub.tmp :: fs Stub.w0) (Stub.audio :: Stub.tmp :: fs Stub.w0)
           (mkProc 1 [] (py "ERROR: [youtube] dQw4w9WgXcQ: Video unavailable"))).
  - reflexivity.
  - reflexivity.
  - reflexivity.
  - simpl. lia.
Defined.

Lemma undersized_audio_is_502_witness :
  exists (msg : pystr) (w' : World),
    transcribe Stub.tiny_audio Stub.req Stub.w0 = (Raise (HTTPException 502 msg), w')
    /\ msg = py "Audio too small (" ++ str_of_int 212 ++ py " bytes)"
    /\ contains (str_of_int 212) msg = true
    /\ trace w'
       = [ Mkdtemp (py "/tmp") (py "whisperx-");
           SubprocessRun
             (ytdlp_argv Stub.tiny_audio
                (os_path_join Stub.tmp (py "audio.%(ext)s")) (video_id Stub.req))
             120;
           Glob (os_path_join Stub.tmp (py "audio.*"));
           Getsize Stub.audio;
           Rmtree Stub.tmp ]
    /\ engine_calls (trace w') = [].
Proof.
  apply (undersized_audio_is_502 Stub.tiny_audio Stub.req Stub.w0
           Stub.tmp (Stub.tmp :: fs Stub.w0)
           (Stub.audio :: Stub.tmp :: fs Stub.w0)
           (Stub.audio :: Stub.tmp :: fs Stub.w0)
           (Stub.audio :: Stub.tmp :: fs Stub.w0)
           (mkProc 0 [] []) Stub.audio [] 212).
  - reflexivity.
  - reflexivity.
  - reflexivity.
  - reflexivity.
  - reflexivity.
  - reflexivity.
  - lia.
Defined.

(* ------------------------------------------------------------------ *)
(** ** The successful run *)

(** The loop appends one shaped segment per yielded segment, in order. *)
Lemma consume_shapes (g : generator) :
  forall acc out,
    consume g acc = Return out ->
    exists l, out = acc ++ l
              /\ Forall2 (fun s seg => shape_segment s = Return seg) (yielded g) l.
Proof.
  induction g as [| e | s rest IH]; simpl; intros acc out H.
  - injection H as <-. exists []. split; [now rewrite app_nil_r | constructor].
  - discriminate.
  - destruct (shape_segment s) as [seg|e] eqn:Hs; [|discriminate].
    apply IH in H as (l & -> & Hl).
    exists (seg :: l). split; [now rewrite <- app_assoc | now constructor].
Qed.

Section Success.

Variable ext : Externals.

Lemma transcribe_body_success (vid tmpdir : pystr) (w1 w2 : World) (body : pyval) :
  transcribe_body ext vid tmpdir w1 = (Return body, w2) ->
  exists g info out,
    engine_produced ext w2 g info
    /\ consume g [] = Return out
    /\ body = VDict [ (py "segments", VList out);
                      (py "duration", VFloat (duration info)) ].
Proof.
  unfold transcribe_body, bind, call, raise, ret, lift, print. simpl.
  destruct (subprocess_run ext _ _ _) as [[r|e] f2]; [|discriminate].
  destruct (returncode r =? 0); simpl; [|discriminate].
  destruct (glob_glob ext _ _) as [[files|e] f3]; [|discriminate].
  destruct files as [|audio_path others]; [discriminate|].
  destruct (os_path_getsize ext _ _) as [[fsize|e] f4]; [|discriminate].
  destruct (fsize <? 1000); [discriminate|].
  destruct (get_model ext _) as [[m|e] w3] eqn:Hgm; [|discriminate].
  simpl.
  destruct (model_transcribe ext _ _ _ _ _ _) as [[[g info]|e] f5] eqn:Hmt; [|discriminate].
  destruct (consume g []) as [out|e] eqn:Hc; [|discriminate].
  intros [= <- <-].
  exists g, info, out. split; [|split; [exact Hc | reflexivity]].
  exists m, audio_path, (fs w3), f5. split; [|exact Hmt].
  simpl. apply in_or_app. left. apply in_or_app. right. now left.
Qed.

(** A request that returns has gone through the engine, and its body is the
    materialised list of shaped segments with the engine's duration. *)
Lemma successful_run (req : TranscribeRequest) (w w' : World) (body : pyval) :
  transcribe ext req w = (Return body, w') ->
  exists g info out,
    engine_produced ext w' g info
    /\ Forall2 (fun s seg => shape_segment s = Return seg) (yielded g) out
    /\ body = VDict [ (py "segments", VList out);
                      (py "duration", VFloat (duration info)) ].
Proof.
  unfold transcribe.
  destruct (negb (truthy (video_id req)) || negb (len (video_id req) =? 11));
    [discriminate|].
  unfold bind at 1, call at 1. simpl.
  destruct (tempfile_mkdtemp ext _ _ _) as [[tmpdir|e] f1]; [|discriminate].
  unfold try_except_finally.
  destruct (transcribe_body ext _ _ _) as [[a|e] w1] eqn:Hb.
  - unfold rmtree. intros [= <- <-].
    apply transcribe_body_success in Hb as (g & info & out & Heng & Hc & ->).
    exists g, info, out. split; [|split; [|reflexivity]].
    + destruct Heng as (m & a & f & f' & Hin & Hmt).
      exists m, a, f, f'. split; [|exact Hmt].
      simpl. apply in_or_app. now left.
    + apply consume_shapes in Hc as (l & -> & Hl). exact Hl.
  - destruct e; unfold transcribe_except, raise, rmtree; discriminate.
Qed.

End Success.

(* ------------------------------------------------------------------ *)
(** ** The shape of a segment and of its words *)

Lemma truthy_nonempty (s : pystr) : truthy s = true -> s <> [].
Proof. destruct s; [discriminate | intros _; discriminate]. Qed.

Lemma shape_words_inv (ws : list Word) :
  forall l, shape_words ws = Return l -> Forall2 word_shaped (filter nonblank ws) l.
Proof.
  induction ws as [|w rest IH]; simpl; intros l H.
  - injection H as <-. constructor.
  - unfold nonblank at 1.
    destruct (truthy (strip (word w))) eqn:Ht; [|now apply IH].
    unfold shape_word in H.
    destruct (PyFloat.to_int _) as [ms|e] eqn:Hms; [|discriminate].
    destruct (shape_words rest) as [l'|e]; [|discriminate].
    injection H as <-. constructor; [|now apply IH].
    exists ms. split; [reflexivity | split; [now apply truthy_nonempty | exact Hms]].
Qed.

Lemma shape_words_blank (ws : list Word) :
  Forall (fun w => strip (word w) = []) ws -> shape_words ws = Return [].
Proof.
  induction 1 as [|w rest Hw _ IH]; simpl; [reflexivity|].
  now rewrite Hw.
Qed.

(** What one iteration appends: the three fields, then ["words"] exactly
    when the raw word list is non-empty. *)
Lemma shape_segment_inv (s : Segment) (seg : pyval) :
  shape_segment s = Return seg ->
  (words_truthy (words s) = false
   /\ seg = VDict [ (py "text", VStr (strip (text s)));
                    (py "offset", VFloat (PyFloat.round (start s) 3));
                    (py "duration",
                     VFloat (PyFloat.round (PyFloat.sub (end_ s) (start s)) 3)) ])
  \/ (exists ws l,
        words s = Some ws /\ ws <> [] /\ shape_words ws = Return l
        /\ seg = VDict [ (py "text", VStr (strip (text s)));
                         (py "offset", VFloat (PyFloat.round (start s) 3));
                         (py "duration",
                          VFloat (PyFloat.round (PyFloat.sub (end_ s) (start s)) 3));
                         (py "words", VList l) ]).
Proof.
  unfold shape_segment.
  destruct (words s) as [[|w ws]|] eqn:Hw; cbv beta iota delta [words_truthy].
  - intros [= <-]. left. now split.
  - destruct (shape_words (w :: ws)) as [l|e] eqn:Hl; [|discriminate].
    intros [= <-]. right. exists (w :: ws), l.
    repeat split; [discriminate | exact Hl].
  - intros [= <-]. left. now split.
Qed.

Lemma shape_segment_fields (s : Segment) (seg : pyval) :
  shape_segment s = Return seg -> segment_fields s seg.
Proof.
  intros H. apply shape_segment_inv in H as [[_ ->] | (ws & l & _ & _ & _ & ->)];
    eexists; (split; [reflexivity|]); repeat split.
Qed.

Lemma shape_segment_words (s : Segment) (seg : pyval) :
  shape_segment s = Return seg -> segment_words s seg.
Proof.
  intros H d l -> Hget.
  apply shape_segment_inv in H as [[_ [= ->]] | (ws & l' & Hws & _ & Hl & [= ->])].
  - discriminate.
  - injection Hget as <-. exists ws. split; [exact Hws|].
    pose proof (shape_words_inv _ _ Hl) as HF. split; [exact HF|].
    rewrite <- (Forall2_length HF). apply filter_length_le.
Qed.

Lemma shape_segment_words_key (s : Segment) (seg : pyval) :
  shape_segment s = Return seg -> segment_words_key s seg.
Proof.
  intros H.
  apply shape_segment_inv in H as [[Hf ->] | (ws & l & Hws & Hne & Hl & ->)];
    eexists; (split; [reflexivity|]); split.
  - reflexivity.
  - intros ws Hws Hne _. rewrite Hws in Hf.
    destruct ws; [now contradiction Hne | discriminate].
  - rewrite Hws. destruct ws; [now contradiction Hne | discriminate].
  - intros ws' Hws' _ Hblank.
    rewrite Hws in Hws'. injection Hws' as <-.
    rewrite (shape_words_blank _ Hblank) in Hl. injection Hl as <-. reflexivity.
Qed.

(* ------------------------------------------------------------------ *)
(** ** Properties of the response *)

Section Response.

Variable ext : Externals.

(** C3.  In a run that returns, the output segments correspond one to one
    and in order to the segments the engine yielded, and each output segment
    has ["text"] equal to the engine text stripped, ["offset"] equal to
    [round(start, 3)] and ["duration"] equal to [round(end - start, 3)]. *)
Theorem segments_trimmed_and_rounded
  (req : TranscribeRequest) (w w' : World) (body : pyval) :
  transcribe ext req w = (Return body, w') ->
  exists g info out,
    engine_produced ext w' g info
    /\ body = VDict [ (py "segments", VList out);
                      (py "duration", VFloat (duration info)) ]
    /\ Forall2 segment_fields (yielded g) out.
Proof.
  intros H. apply successful_run in H as (g & info & out & Heng & HF & ->).
  exists g, info, out. split; [exact Heng | split; [reflexivity|]].
  eapply Forall2_impl; [|exact HF]. apply shape_segment_fields.
Qed.

(** C4.  In a run that returns, the ["words"] list of every output segment
    holds, in order, exactly the engine words whose text does not strip to
    the empty string (so it is no longer than the engine's list); each entry
    has ["text"] equal to the stripped word, which is non-empty, and
    ["startMs"] equal to [int(start * 1000)]. *)
Theorem words_trimmed_filtered_and_timed
  (req : TranscribeRequest) (w w' : World) (body : pyval) :
  transcribe ext req w = (Return body, w') ->
  exists g info out,
    engine_produced ext w' g info
    /\ body = VDict [ (py "segments", VList out);
                      (py "duration", VFloat (duration info)) ]
    /\ Forall2 segment_words (yielded g) out.
Proof.
  intros H. apply successful_run in H as (g & info & out & Heng & HF & ->).
  exists g, info, out. split; [exact Heng | split; [reflexivity|]].
  eapply Forall2_impl; [|exact HF]. apply shape_segment_words.
Qed.

(** C10.  The ["words"] key follows the raw word data.  A segment whose
    word list is non-empty but whose words all strip to the empty string is
    shaped with ["words": []]; a segment without word data (none, or an
    empty list) is shaped without the key.  In a run that returns this holds
    of every output segment, against the segment the engine yielded. *)
Theorem words_key_follows_raw_data :
  (forall s ws,
     words s = Some ws -> ws <> [] ->
     Forall (fun w => strip (word w) = []) ws ->
     shape_segment s
     = Return (VDict [ (py "text", VStr (strip (text s)));
                       (py "offset", VFloat (PyFloat.round (start s) 3));
                       (py "duration",
                        VFloat (PyFloat.round (PyFloat.sub (end_ s) (start s)) 3));
                       (py "words", VList []) ]))
  /\ (forall s,
        words s = None \/ words s = Some [] ->
        shape_segment s
        = Return (VDict [ (py "text", VStr (strip (text s)));
                          (py "offset", VFloat (PyFloat.round (start s) 3));
                          (py "duration",
                           VFloat (PyFloat.round (PyFloat.sub (end_ s) (start s)) 3)) ]))
  /\ (forall (req : TranscribeRequest) (w w' : World) (body : pyval),
        transcribe ext req w = (Return body, w') ->
        exists g info out,
          engine_produced ext w' g info
          /\ body = VDict [ (py "segments", VList out);
                            (py "duration", VFloat (duration info)) ]
          /\ Forall2 segment_words_key (yielded g) out).
Proof.
  split; [|split].
  - intros s ws Hws Hne Hblank. unfold shape_segment. rewrite Hws.
    destruct ws as [|w0 ws']; [now contradiction Hne|].
    cbv beta iota delta [words_truthy].
    rewrite (shape_words_blank _ Hblank). reflexivity.
  - intros s [Hw|Hw]; unfold shape_segment; rewrite Hw; reflexivity.
  - intros req w w' body H.
    apply successful_run in H as (g & info & out & Heng & HF & ->).
    exists g, info, out. split; [exact Heng | split; [reflexivity|]].
    eapply Forall2_impl; [|exact HF]. apply shape_segment_words_key.
Qed.


End Response.

(** The end-to-end example: the blank word is dropped. *)
Example end_to_end :
  transcribe (Stub.happy (GYield Stub.hello GStop)) Stub.req Stub.w0
  = (Return (Expected.body [Expected.hello_seg]),
     Expected.final (GYield Stub.hello GStop)).
Proof. vm_compute. reflexivity. Qed.

Example end_to_end_mixed :
  transcribe (Stub.happy Expected.mixed) Stub.req Stub.w0
  = (Return (Expected.body
               [Expected.hello_seg; Expected.blanks_seg; Expected.bare_seg]),
     Expected.final Expected.mixed).
Proof. vm_compute. reflexivity. Qed.

Lemma segments_trimmed_and_rounded_witness :
  exists g info out,
    engine_produced (Stub.happy Expected.mixed) (Expected.final Expected.mixed) g info
    /\ Expected.body [Expected.hello_seg; Expected.blanks_seg; Expected.bare_seg]
       = VDict [ (py "segments", VList out);
                 (py "duration", VFloat (duration info)) ]
    /\ Forall2 segment_fields (yielded g) out.
Proof.
  apply (segments_trimmed_and_rounded (Stub.happy Expected.mixed) Stub.req Stub.w0).
  vm_compute. reflexivity.
Defined.

Lemma words_trimmed_filtered_and_timed_witness :
  exists g info out,
    engine_produced (Stub.happy (GYield Stub.hello GStop))
      (Expected.final (GYield Stub.hello GStop)) g info
    /\ Expected.body [Expected.hello_seg]
       = VDict [ (py "segments", VList out);
                 (py "duration", VFloat (duration info)) ]
    /\ Forall2 segment_words (yielded g) out.
Proof.
  apply (words_trimmed_filtered_and_timed
           (Stub.happy (GYield Stub.hello GStop)) Stub.req Stub.w0).
  vm_compute. reflexivity.
Defined.

Lemma words_key_follows_raw_data_witness :
  shape_segment Stub.blanks = Return Expected.blanks_seg
  /\ shape_segment Stub.bare = Return Expected.bare_seg
  /\ exists g info out,
       engine_produced (Stub.happy (GYield Stub.blanks (GYield Stub.bare GStop)))
         (Expected.final (GYield Stub.blanks (GYield Stub.bare GStop))) g info
       /\ Expected.body [Expected.blanks_seg; Expected.bare_seg]
          = VDict [ (py "segments", VList out);
                    (py "duration", VFloat (duration info)) ]
       /\ Forall2 segment_words_key (yielded g) out.
Proof.
  destruct (words_key_follows_raw_data
              (Stub.happy (GYield Stub.blanks (GYield Stub.bare GStop))))
    as (Hblank & Hbare & Hrun).
  split; [|split].
  - rewrite (Hblank Stub.blanks
               [ mkWord (py " ") (PyFloat.lit 1234 3); mkWord (py "  ") (PyFloat.lit 2 0) ]
               eq_refl).
    + vm_compute. reflexivity.
    + discriminate.
    + repeat constructor.
  - rewrite (Hbare Stub.bare (or_introl eq_refl)). vm_compute. reflexivity.
  - apply (Hrun Stub.req Stub.w0). vm_compute. reflexivity.
Defined.

(** A body with a not-a-number duration is returned by the handler all the
    same, and then the framework cannot render it. *)
Example nan_duration_is_not_served :
  fst (transcribe
         (mkExternals (py "/usr/bin/python3") Stub.mkdtemp_ok (Stub.run_writes 0 [])
            Stub.glob_prefix (Stub.getsize_const 51200) Stub.import_ok Stub.init_ok
            (Stub.engine_yields GStop S754_nan)
            Stub.environ_empty (py "gpu-box") Stub.dumps_none Stub.request_ok
            Stub.urlopen_ok Stub.rmtree_ok Stub.stdout_ok)
         Stub.req Stub.w0)
  = Return (VDict [ (py "segments", VList []); (py "duration", VFloat S754_nan) ])
  /\ fst (http_response
            (Return (VDict [ (py "segments", VList []);
                             (py "duration", VFloat S754_nan) ])))
     = 500.
Proof. split; vm_compute; reflexivity. Qed.


(* ------------------------------------------------------------------ *)
(** ** Unclassified errors *)

Section Unclassified.

Variable ext : Externals.

(** Once loaded, the model is handed out without any call. *)
Lemma get_model_warm (m : WhisperModel) (w : World) :
  _model w = Some m -> get_model ext w = (Return m, w).
Proof. intros H. unfold get_model. now rewrite H. Qed.

(** With the model loaded, an engine call that raises is an exception of the
    [try] block. *)
Lemma engine_failure_in_body
  (vid tmpdir : pystr) (w : World) (f1 f2 f3 f4 : FS)
  (r : CompletedProcess) (audio_path : pystr) (others : list pystr) (fsize : Z)
  (m : WhisperModel) (e : PyException) :
  subprocess_run ext
    (ytdlp_argv ext (os_path_join tmpdir (py "audio.%(ext)s")) vid) 120 (fs w)
    = (Ok r, f1) ->
  returncode r = 0 ->
  glob_glob ext (os_path_join tmpdir (py "audio.*")) f1 = (Ok (audio_path :: others), f2) ->
  os_path_getsize ext audio_path f2 = (Ok fsize, f3) ->
  1000 <= fsize ->
  _model w = Some m ->
  model_transcribe ext m audio_path 5 true (py "en") f3 = (Fails e, f4) ->
  fst (transcribe_body ext vid tmpdir w) = Raise (Exception e).
Proof.
  intros Hrun Hrc Hglob Hsize Hge Hm Hmt.
  unfold transcribe_body, bind, call, raise, ret, lift, print.
  change (fs (log (SubprocessRun
                     (ytdlp_argv ext (os_path_join tmpdir (py "audio.%(ext)s")) vid) 120) w))
    with (fs w).
  rewrite Hrun, Hrc. simpl. rewrite Hglob. simpl. rewrite Hsize.
  apply Z.ltb_ge in Hge. rewrite Hge.
  rewrite (get_model_warm m) by exact Hm.
  simpl. rewrite Hmt. reflexivity.
Qed.

(** C7, as the code has it.  Inside the [try] block, which starts once the
    temp directory exists, an exception that is not an [HTTPException]
    becomes [HTTPException(500, str(e))], and an [HTTPException] (the 502 of
    a fetch error) reaches the caller with its status and message unchanged;
    so does the 400 of the validation, raised before the block. *)
Theorem try_block_exceptions_mapped (req : TranscribeRequest) (w : World) :
  (len (video_id req) <> 11 ->
   fst (transcribe ext req w) = Raise (HTTPException 400 (py "Invalid video_id")))
  /\ (forall (tmpdir : pystr) (f1 : FS) (e : exn) (w1 : World),
        len (video_id req) = 11 ->
        tempfile_mkdtemp ext (py "/tmp") (py "whisperx-") (fs w) = (Ok tmpdir, f1) ->
        transcribe_body ext (video_id req) tmpdir
          (with_fs f1 (log (Mkdtemp (py "/tmp") (py "whisperx-")) w)) = (Raise e, w1) ->
        fst (transcribe ext req w)
        = Raise (match e with
                 | HTTPException status_code detail => HTTPException status_code detail
                 | Exception e' => HTTPException 500 (exc_str e')
                 end)).
Proof.
  split.
  - intros H. unfold transcribe.
    apply Z.eqb_neq in H. rewrite H, orb_true_r. reflexivity.
  - intros tmpdir f1 e w1 Hlen Hmk Hb.
    unfold transcribe.
    rewrite (len_11_truthy _ Hlen), Hlen. simpl.
    unfold bind at 1, call at 1.
    change (fs (log (Mkdtemp (py "/tmp") (py "whisperx-")) w)) with (fs w).
    rewrite Hmk.
    unfold try_except_finally. rewrite Hb.
    destruct e; reflexivity.
Qed.

End Unclassified.

Lemma try_block_exceptions_mapped_witness :
  fst (transcribe Stub.download_times_out (mkReq (py "short")) Stub.w0)
  = Raise (HTTPException 400 (py "Invalid video_id"))
  /\ fst (transcribe Stub.download_times_out Stub.req Stub.w0)
     = Raise (HTTPException 500 (py "Command timed out after 120 seconds"))
  /\ fst (transcribe Stub.tiny_audio Stub.req Stub.w0)
     = Raise (HTTPException 502 (py "Audio too small (212 bytes)")).
Proof.
  split; [|split].
  - apply (proj1 (try_block_exceptions_mapped Stub.download_times_out
                    (mkReq (py "short")) Stub.w0)).
    vm_compute. discriminate.
  - apply (proj2 (try_block_exceptions_mapped Stub.download_times_out Stub.req Stub.w0)
             Stub.tmp (Stub.tmp :: fs Stub.w0)
             (Exception (mkExc (py "TimeoutExpired")
                           (py "Command timed out after 120 seconds")))
             (snd (transcribe_body Stub.download_times_out (video_id Stub.req) Stub.tmp
                     (with_fs (Stub.tmp :: fs Stub.w0)
                        (log (Mkdtemp (py "/tmp") (py "whisperx-")) Stub.w0))))
             eq_refl eq_refl).
    vm_compute. reflexivity.
  - apply (proj2 (try_block_exceptions_mapped Stub.tiny_audio Stub.req Stub.w0)
             Stub.tmp (Stub.tmp :: fs Stub.w0)
             (HTTPException 502 (py "Audio too small (212 bytes)"))
             (snd (transcribe_body Stub.tiny_audio (video_id Stub.req) Stub.tmp
                     (with_fs (Stub.tmp :: fs Stub.w0)
                        (log (Mkdtemp (py "/tmp") (py "whisperx-")) Stub.w0))))
             eq_refl eq_refl).
    vm_compute. reflexivity.
Defined.

(** C7, as stated, fails when the temp directory cannot be created: the
    exception of [mkdtemp] is raised before the [try] block and leaves the
    handler as it is, not as an [HTTPException] with status 500 and its
    text; the caller gets the framework's bare 500, without that text. *)
Lemma mkdtemp_failure_is_not_mapped :
  tempfile_mkdtemp Stub.disk_full (py "/tmp") (py "whisperx-") (fs Stub.w0)
  = (Fails Stub.enospc, fs Stub.w0)
  /\ fst (transcribe Stub.disk_full Stub.req Stub.w0) = Raise (Exception Stub.enospc)
  /\ fst (transcribe Stub.disk_full Stub.req Stub.w0)
     <> Raise (HTTPException 500 (exc_str Stub.enospc))
  /\ http_response (fst (transcribe Stub.disk_full Stub.req Stub.w0))
     = (500, VStr (py "Internal Server Error"))
  /\ http_response (fst (transcribe Stub.disk_full Stub.req Stub.w0))
     <> http_response (Raise (HTTPException 500 (exc_str Stub.enospc))).
Proof.
  split; [reflexivity|]. split; [reflexivity|].
  split; [vm_compute; discriminate|].
  split; [reflexivity|].
  vm_compute. discriminate.
Qed.

(* ------------------------------------------------------------------ *)
(** ** Service registration *)

Section Registration.

Variable ext : Externals.



End Registration.



(* ------------------------------------------------------------------ *)
(** ** The model singleton *)

Lemma count_calls_app (p : event -> bool) (a b : list event) :
  count_calls p (a ++ b) = (count_calls p a + count_calls p b)%nat.
Proof. unfold count_calls. now rewrite filter_app, length_app. Qed.

Section Singleton.

Variable ext : Externals.

(** Every way [get_model] can end. *)
Lemma get_model_inv (w w1 : World) (r : outcome WhisperModel) :
  get_model ext w = (r, w1) ->
  (exists m, _model w = Some m /\ r = Return m /\ w1 = w)
  \/ (_model w = None
      /\ exists e, import_faster_whisper ext (fs w) = (Fails e, fs w1)
                   /\ r = Raise (Exception e) /\ _model w1 = None
                   /\ trace w1 = trace w ++ [ImportFasterWhisper])
  \/ (_model w = None
      /\ exists f e,
           import_faster_whisper ext (fs w) = (Ok tt, f)
           /\ WhisperModel_init ext (py "large-v3") (py "cuda") (py "float16") f
              = (Fails e, fs w1)
           /\ r = Raise (Exception e) /\ _model w1 = None
           /\ trace w1 = trace w ++ [ ImportFasterWhisper;
                                      Print (py "[whisperx] Loading model on GPU...");
                                      LoadModel (py "large-v3") (py "cuda") (py "float16") ])
  \/ (_model w = None
      /\ exists f m,
           import_faster_whisper ext (fs w) = (Ok tt, f)
           /\ WhisperModel_init ext (py "large-v3") (py "cuda") (py "float16") f
              = (Ok m, fs w1)
           /\ r = Return m /\ _model w1 = Some m
           /\ trace w1 = trace w ++ [ ImportFasterWhisper;
                                      Print (py "[whisperx] Loading model on GPU...");
                                      LoadModel (py "large-v3") (py "cuda") (py "float16");
                                      Print (py "[whisperx] Model ready.") ]).
Proof.
  unfold get_model.
  destruct (_model w) as [m|] eqn:Hm.
  - intros [= <- <-]. left. now exists m.
  - unfold bind, call, print, ret. simpl.
    destruct (import_faster_whisper ext (fs w)) as [[[]|e] f] eqn:Hi; simpl.
    + destruct (WhisperModel_init ext _ _ _ f) as [[m|e] f'] eqn:Hc; simpl.
      * intros [= <- <-]. right. right. right. split; [reflexivity|].
        exists f, m. simpl. repeat split; try assumption.
        now rewrite <- !app_assoc.
      * intros [= <- <-]. right. right. left. split; [reflexivity|].
        exists f, e. simpl. repeat split; try assumption.
        now rewrite <- !app_assoc.
    + intros [= <- <-]. right. left. split; [reflexivity|].
      exists e. simpl. repeat split; assumption.
Qed.

(** X1.  [get_model] is a singleton: when it returns a model, that model is
    the module global afterwards, and a second call returns the same model
    and leaves the world as it is, so nothing is imported or constructed
    twice. *)
Theorem get_model_is_singleton (w w1 : World) (m : WhisperModel) :
  get_model ext w = (Return m, w1) ->
  _model w1 = Some m /\ get_model ext w1 = (Return m, w1).
Proof.
  intros H.
  assert (Hm : _model w1 = Some m).
  { apply get_model_inv in H
      as [(m' & Hw & [= ->] & ->)
         | [(_ & e & _ & [=] & _)
           | [(_ & f & e & _ & _ & [=] & _)
             | (_ & f & m' & _ & _ & [= ->] & Hm & _)]]]; assumption. }
  split; [exact Hm|]. unfold get_model. now rewrite Hm.
Qed.


(** Registration does not touch the model. *)
Lemma register_service_keeps_model (w w' : World) (r : outcome unit) :
  register_service ext w = (r, w') -> _model w' = _model w.
Proof.
  unfold register_service.
  destruct (negb _ || negb _).
  - unfold bind, print_checked, ret.
    destruct (stdout_write ext _); intros [= <- <-]; reflexivity.
  - unfold try_except, try_except_finally, bind, call, lift, print_checked, ret.
    destruct (registry_request ext _ _) as [rq|e]; simpl.
    + destruct (urlopen ext rq 5 (fs w)) as [[[]|e] f]; simpl;
        repeat (destruct (stdout_write ext _); simpl);
        intros [= <- <-]; reflexivity.
    + destruct (stdout_write ext _); simpl; intros [= <- <-]; reflexivity.
Qed.

(** X3.  After a [startup] that returned, the model is loaded: the global is
    set, registration has left it alone, and [get_model] hands it out
    without any call. *)
Theorem startup_leaves_model_loaded (w w2 : World) :
  startup ext w = (Return tt, w2) ->
  exists m, _model w2 = Some m /\ get_model ext w2 = (Return m, w2).
Proof.
  unfold startup, bind.
  destruct (get_model ext w) as [[m|e] w1] eqn:Hgm; [|discriminate].
  intros Hreg. apply register_service_keeps_model in Hreg.
  assert (Hm : _model w1 = Some m).
  { apply get_model_inv in Hgm
      as [(m' & Hw & [= ->] & ->)
         | [(_ & e & _ & [=] & _)
           | [(_ & f & e & _ & _ & [=] & _)
             | (_ & f & m' & _ & _ & [= ->] & Hm & _)]]]; assumption. }
  exists m. rewrite Hreg. split; [exact Hm|].
  unfold get_model. now rewrite Hreg, Hm.
Qed.

End Singleton.

Lemma get_model_is_singleton_witness :
  _model (snd (get_model (Stub.happy GStop) Stub.w0)) = Some Stub2.large_v3
  /\ get_model (Stub.happy GStop) (snd (get_model (Stub.happy GStop) Stub.w0))
     = (Return Stub2.large_v3, snd (get_model (Stub.happy GStop) Stub.w0)).
Proof.
  apply (get_model_is_singleton (Stub.happy GStop) Stub.w0).
  vm_compute. reflexivity.
Defined.


Lemma startup_leaves_model_loaded_witness :
  exists m,
    _model (snd (startup (Stub.happy GStop) Stub.w0)) = Some m
    /\ get_model (Stub.happy GStop) (snd (startup (Stub.happy GStop) Stub.w0))
       = (Return m, snd (startup (Stub.happy GStop) Stub.w0)).
Proof.
  apply (startup_leaves_model_loaded (Stub.happy GStop) Stub.w0).
  vm_compute. reflexivity.
Defined.

(* ------------------------------------------------------------------ *)
(** ** Every path through the handler *)

Lemma to_int_raises_exception (x : PyFloat.float) (e : exn) :
  PyFloat.to_int x = Raise e -> exists e', e = Exception e'.
Proof. destruct x; simpl; intros [= <-]; eexists; reflexivity. Qed.

Lemma shape_words_raises_exception (ws : list Word) (e : exn) :
  shape_words ws = Raise e -> exists e', e = Exception e'.
Proof.
  induction ws as [|w rest IH]; simpl; [discriminate|].
  destruct (truthy (strip (word w))); [|exact IH].
  unfold shape_word.
  destruct (PyFloat.to_int _) as [ms|e0] eqn:Hms.
  - destruct (shape_words rest) as [l|e1]; [discriminate|].
    intros [= <-]. now apply IH.
  - intros [= <-]. eapply to_int_raises_exception. exact Hms.
Qed.

Lemma shape_segment_raises_exception (s : Segment) (e : exn) :
  shape_segment s = Raise e -> exists e', e = Exception e'.
Proof.
  unfold shape_segment. destruct (words_truthy (words s)); [|discriminate].
  destruct (shape_words _) as [l|e0] eqn:H; [discriminate|].
  intros [= <-]. eapply shape_words_raises_exception. exact H.
Qed.

Lemma consume_raises_exception (g : generator) :
  forall acc e, consume g acc = Raise e -> exists e', e = Exception e'.
Proof.
  induction g as [| e0 | s rest IH]; simpl; intros acc e H.
  - discriminate.
  - injection H as <-. now eexists.
  - destruct (shape_segment s) as [seg|e1] eqn:Hs.
    + eapply IH. exact H.
    + injection H as <-. eapply shape_segment_raises_exception. exact Hs.
Qed.

Section Paths.

Variable ext : Externals.

Lemma get_model_raises_exception (w w1 : World) (e : exn) :
  get_model ext w = (Raise e, w1) -> exists e', e = Exception e'.
Proof.
  intros H. apply get_model_inv in H
    as [(m' & _ & [=] & _)
       | [(_ & e' & _ & [= ->] & _)
         | [(_ & f & e' & _ & _ & [= ->] & _)
           | (_ & f & m' & _ & _ & [=] & _)]]]; now eexists.
Qed.

Lemma get_model_keeps_counts (p : event -> bool) (w w1 : World) (r : outcome WhisperModel) :
  p ImportFasterWhisper = false ->
  (forall a b c, p (LoadModel a b c) = false) ->
  (forall msg, p (Print msg) = false) ->
  get_model ext w = (r, w1) ->
  count_calls p (trace w1) = count_calls p (trace w).
Proof.
  intros Hi Hl Hp H. apply get_model_inv in H
    as [(m' & _ & _ & ->)
       | [(_ & e' & _ & _ & _ & ->)
         | [(_ & f & e' & _ & _ & _ & _ & ->)
           | (_ & f & m' & _ & _ & _ & _ & ->)]]];
    [reflexivity | | | ];
    rewrite count_calls_app; unfold count_calls; simpl;
    rewrite ?Hi, ?Hl, ?Hp; simpl; rewrite ?Hl, ?Hp; simpl; lia.
Qed.

Ltac body_paths :=
  unfold transcribe_body, bind, call, raise, ret, lift, print; simpl;
  destruct (subprocess_run ext _ _ _) as [[r|?] f2] eqn:Hrun; simpl;
  [ destruct (returncode r =? 0) eqn:Hrc; simpl;
    [ destruct (glob_glob ext _ _) as [[files|?] f3] eqn:Hglob; simpl;
      [ destruct files as [|audio_path others]; simpl;
        [ | destruct (os_path_getsize ext _ _) as [[fsize|?] f4] eqn:Hsize; simpl;
            [ destruct (fsize <? 1000) eqn:Hlt; simpl;
              [ | destruct (get_model ext _) as [[m|?] w3] eqn:Hgm; simpl;
                  [ destruct (model_transcribe ext _ _ _ _ _ _)
                      as [[[g info]|?] f5] eqn:Hmt; simpl;
                    [ destruct (consume g []) as [out|?] eqn:Hc; simpl | ]
                  | ] ]
            | ] ]
      | ]
    | ]
  | ].

(** What the [try] block raises: its own 502, or an exception of a call. *)
Lemma transcribe_body_raises (vid tmpdir : pystr) (w w1 : World) (e : exn) :
  transcribe_body ext vid tmpdir w = (Raise e, w1) ->
  (exists detail, e = HTTPException 502 detail) \/ (exists e', e = Exception e').
Proof.
  body_paths; intros [= <- <-];
    try (left; eexists; reflexivity);
    try (right; eexists; reflexivity).
  - right. eapply consume_raises_exception. exact Hc.
  - right. eapply get_model_raises_exception. exact Hgm.
Qed.

Ltac gm_counts H :=
  pose proof (get_model_keeps_counts is_download _ _ _ eq_refl
                (fun _ _ _ => eq_refl) (fun _ => eq_refl) H);
  pose proof (get_model_keeps_counts is_decode _ _ _ eq_refl
                (fun _ _ _ => eq_refl) (fun _ => eq_refl) H);
  pose proof (get_model_keeps_counts is_mkdtemp _ _ _ eq_refl
                (fun _ _ _ => eq_refl) (fun _ => eq_refl) H);
  pose proof (get_model_keeps_counts is_rmtree _ _ _ eq_refl
                (fun _ _ _ => eq_refl) (fun _ => eq_refl) H);
  pose proof (get_model_keeps_counts is_urlopen _ _ _ eq_refl
                (fun _ _ _ => eq_refl) (fun _ => eq_refl) H).

(** The calls of the [try] block: one download, at most one decoding. *)
Lemma transcribe_body_counts (vid tmpdir : pystr) (w w1 : World) (res : outcome pyval) :
  transcribe_body ext vid tmpdir w = (res, w1) ->
  count_calls is_download (trace w1) = (count_calls is_download (trace w) + 1)%nat
  /\ (count_calls is_decode (trace w1) <= count_calls is_decode (trace w) + 1)%nat
  /\ count_calls is_mkdtemp (trace w1) = count_calls is_mkdtemp (trace w)
  /\ count_calls is_rmtree (trace w1) = count_calls is_rmtree (trace w)
  /\ count_calls is_urlopen (trace w1) = count_calls is_urlopen (trace w).
Proof.
  body_paths; intros [= <- <-]; simpl;
    try (gm_counts Hgm); simpl in *;
    rewrite ?count_calls_app in *;
    unfold count_calls in *; simpl in *; lia.
Qed.

(** With the model loaded, the [try] block neither loads nor replaces it. *)
Lemma transcribe_body_warm
  (vid tmpdir : pystr) (w w1 : World) (res : outcome pyval) (mdl : WhisperModel) :
  _model w = Some mdl ->
  transcribe_body ext vid tmpdir w = (res, w1) ->
  _model w1 = Some mdl
  /\ count_calls is_load (trace w1) = count_calls is_load (trace w).
Proof.
  intros Hm.
  body_paths;
    try (rewrite (get_model_warm ext mdl) in Hgm by (simpl; exact Hm));
    try discriminate Hgm;
    try (injection Hgm as <- <-);
    intros [= <- <-]; simpl;
    (split; [exact Hm|]);
    rewrite ?count_calls_app; unfold count_calls; simpl; lia.
Qed.

(** The three ways through the handler: the id is rejected, the temp
    directory cannot be created, or the [try] block runs and the directory is
    removed. *)
Lemma transcribe_inv (req : TranscribeRequest) (w w' : World) (res : outcome pyval) :
  transcribe ext req w = (res, w') ->
  (len (video_id req) <> 11
   /\ res = Raise (HTTPException 400 (py "Invalid video_id")) /\ w' = w)
  \/ (len (video_id req) = 11
      /\ exists e f,
           tempfile_mkdtemp ext (py "/tmp") (py "whisperx-") (fs w) = (Fails e, f)
           /\ res = Raise (Exception e)
           /\ w' = with_fs f (log (Mkdtemp (py "/tmp") (py "whisperx-")) w))
  \/ (len (video_id req) = 11
      /\ exists tmpdir f1 r1 w1,
           tempfile_mkdtemp ext (py "/tmp") (py "whisperx-") (fs w) = (Ok tmpdir, f1)
           /\ transcribe_body ext (video_id req) tmpdir
                (with_fs f1 (log (Mkdtemp (py "/tmp") (py "whisperx-")) w)) = (r1, w1)
           /\ res = match r1 with
                    | Return a => Return a
                    | Raise (HTTPException status_code detail) =>
                        Raise (HTTPException status_code detail)
                    | Raise (Exception e) => Raise (HTTPException 500 (exc_str e))
                    end
           /\ w' = with_fs (rmtree_fs (rmtree_stuck ext tmpdir (fs w1)) tmpdir (fs w1))
                     (log (Rmtree tmpdir) w1)).
Proof.
  unfold transcribe.
  destruct (len (video_id req) =? 11) eqn:Hlen.
  - apply Z.eqb_eq in Hlen. rewrite (len_11_truthy _ Hlen). simpl.
    unfold bind at 1, call at 1.
    change (fs (log (Mkdtemp (py "/tmp") (py "whisperx-")) w)) with (fs w).
    destruct (tempfile_mkdtemp ext _ _ _) as [[tmpdir|e] f1] eqn:Hmk.
    + unfold try_except_finally.
      destruct (transcribe_body ext _ _ _) as [r1 w1] eqn:Hb.
      intros H. right. right. split; [exact Hlen|].
      exists tmpdir, f1, r1, w1. split; [reflexivity|]. split; [exact Hb|].
      destruct r1 as [a|[s d|e]]; unfold transcribe_except, raise, rmtree in H;
        injection H as <- <-; split; reflexivity.
    + intros [= <- <-]. right. left. split; [exact Hlen|]. now exists e, f1.
  - rewrite orb_true_r. unfold raise. intros [= <- <-]. left.
    split; [now apply Z.eqb_neq | split; reflexivity].
Qed.

(** X4.  The outcomes of the handler.  It returns a body only for an
    11-character id.  The statuses it raises are 400, exactly for the other
    ids, and 502 and 500.  The only exception that leaves it unconverted is
    the one of [mkdtemp], and then [mkdtemp] is the only call that was made. *)
Theorem transcribe_outcomes (req : TranscribeRequest) (w : World) :
  match fst (transcribe ext req w) with
  | Return _ => len (video_id req) = 11
  | Raise (HTTPException status_code _) =>
      (status_code = 400 /\ len (video_id req) <> 11)
      \/ ((status_code = 502 \/ status_code = 500) /\ len (video_id req) = 11)
  | Raise (Exception e) =>
      len (video_id req) = 11
      /\ exists f,
           tempfile_mkdtemp ext (py "/tmp") (py "whisperx-") (fs w) = (Fails e, f)
           /\ snd (transcribe ext req w)
              = with_fs f (log (Mkdtemp (py "/tmp") (py "whisperx-")) w)
  end.
Proof.
  destruct (transcribe ext req w) as [res w'] eqn:Ht. simpl.
  apply transcribe_inv in Ht
    as [(Hlen & -> & ->)
       | [(Hlen & e & f & Hmk & -> & ->)
         | (Hlen & tmpdir & f1 & r1 & w1 & Hmk & Hb & -> & ->)]].
  - left. now split.
  - split; [exact Hlen|]. now exists f.
  - destruct r1 as [a|e]; [exact Hlen|].
    apply transcribe_body_raises in Hb as [(d & ->) | (e' & ->)];
      right; (split; [|exact Hlen]); [now left | now right].
Qed.

(** X5.  One attempt per request: whatever happens, a request creates at
    most one temp directory, runs the downloader at most once, calls the
    engine at most once, removes at most one tree, and never contacts the
    registry. *)
Theorem one_attempt_per_request (req : TranscribeRequest) (w : World) :
  (count_calls is_mkdtemp (trace (snd (transcribe ext req w)))
   <= count_calls is_mkdtemp (trace w) + 1)%nat
  /\ (count_calls is_download (trace (snd (transcribe ext req w)))
      <= count_calls is_download (trace w) + 1)%nat
  /\ (count_calls is_decode (trace (snd (transcribe ext req w)))
      <= count_calls is_decode (trace w) + 1)%nat
  /\ (count_calls is_rmtree (trace (snd (transcribe ext req w)))
      <= count_calls is_rmtree (trace w) + 1)%nat
  /\ count_calls is_urlopen (trace (snd (transcribe ext req w)))
     = count_calls is_urlopen (trace w).
Proof.
  destruct (transcribe ext req w) as [res w'] eqn:Ht. simpl.
  apply transcribe_inv in Ht
    as [(Hlen & -> & ->)
       | [(Hlen & e & f & Hmk & -> & ->)
         | (Hlen & tmpdir & f1 & r1 & w1 & Hmk & Hb & -> & ->)]].
  - lia.
  - simpl. rewrite !count_calls_app. unfold count_calls. simpl. lia.
  - apply transcribe_body_counts in Hb as (Hd & He & Hk & Hr & Hu).
    simpl in Hd, He, Hk, Hr, Hu. rewrite count_calls_app in Hd, He, Hk, Hr, Hu.
    simpl. rewrite !count_calls_app.
    unfold count_calls in *. simpl in *. lia.
Qed.

(** X6.  A loaded model survives every request: if the global is set when
    the request arrives, it holds the same model when the handler ends, on
    every path, and the request neither imports the engine nor constructs a
    model. *)
Theorem loaded_model_is_kept (req : TranscribeRequest) (w : World) (mdl : WhisperModel) :
  _model w = Some mdl ->
  _model (snd (transcribe ext req w)) = Some mdl
  /\ count_calls is_load (trace (snd (transcribe ext req w)))
     = count_calls is_load (trace w).
Proof.
  intros Hm.
  destruct (transcribe ext req w) as [res w'] eqn:Ht. simpl.
  apply transcribe_inv in Ht
    as [(Hlen & -> & ->)
       | [(Hlen & e & f & Hmk & -> & ->)
         | (Hlen & tmpdir & f1 & r1 & w1 & Hmk & Hb & -> & ->)]].
  - now split.
  - simpl. split; [exact Hm|].
    rewrite count_calls_app. unfold count_calls. simpl. lia.
  - apply transcribe_body_warm with (mdl := mdl) in Hb as (Hm1 & Hl); [|exact Hm].
    simpl in Hl. rewrite count_calls_app in Hl.
    simpl. split; [exact Hm1|].
    rewrite count_calls_app. unfold count_calls in *. simpl in *. lia.
Qed.

End Paths.

Lemma loaded_model_is_kept_witness :
  _model (snd (transcribe Stub.download_times_out Stub.req Stub2.warm))
  = Some Stub2.large_v3
  /\ count_calls is_load
       (trace (snd (transcribe Stub.download_times_out Stub.req Stub2.warm)))
     = count_calls is_load (trace Stub2.warm).
Proof.
  apply (loaded_model_is_kept Stub.download_times_out Stub.req Stub2.warm).
  reflexivity.
Defined.

(* ------------------------------------------------------------------ *)
(** ** More fetch errors *)

Section MoreFetchErrors.

Variable ext : Externals.

(** The handler, once the temp directory exists: the outcome of the [try]
    block goes through the [except] clauses, and the directory is removed. *)
Lemma transcribe_through_body
  (req : TranscribeRequest) (w w1 : World) (tmpdir : pystr) (f1 : FS)
  (r1 : outcome pyval) :
  len (video_id req) = 11 ->
  tempfile_mkdtemp ext (py "/tmp") (py "whisperx-") (fs w) = (Ok tmpdir, f1) ->
  transcribe_body ext (video_id req) tmpdir
    (with_fs f1 (log (Mkdtemp (py "/tmp") (py "whisperx-")) w)) = (r1, w1) ->
  transcribe ext req w
  = (match r1 with
     | Return a => Return a
     | Raise (HTTPException status_code detail) => Raise (HTTPException status_code detail)
     | Raise (Exception e) => Raise (HTTPException 500 (exc_str e))
     end,
     with_fs (rmtree_fs (rmtree_stuck ext tmpdir (fs w1)) tmpdir (fs w1))
                     (log (Rmtree tmpdir) w1)).
Proof.
  intros Hlen Hmk Hb. unfold transcribe.
  rewrite (len_11_truthy _ Hlen), Hlen. simpl.
  unfold bind at 1, call at 1.
  change (fs (log (Mkdtemp (py "/tmp") (py "whisperx-")) w)) with (fs w).
  rewrite Hmk. unfold try_except_finally. rewrite Hb.
  destruct r1 as [a|[s d|e]]; reflexivity.
Qed.

(** X7.  When the downloader exits with status 0 but [glob] finds no file,
    the handler raises [HTTPException(502, "No audio file found. stdout: " +
    stdout[:200])]: the message carries at most 200 characters of the
    output stream.  The size is never asked for and the engine is not
    reached; the calls of the request are [mkdtemp], the downloader, [glob]
    and the final [rmtree] of the temp directory. *)
Theorem missing_audio_file_is_502
  (req : TranscribeRequest) (w : World) (tmpdir : pystr) (f1 f2 f3 : FS)
  (r : CompletedProcess) :
  len (video_id req) = 11 ->
  tempfile_mkdtemp ext (py "/tmp") (py "whisperx-") (fs w) = (Ok tmpdir, f1) ->
  subprocess_run ext
    (ytdlp_argv ext (os_path_join tmpdir (py "audio.%(ext)s")) (video_id req)) 120 f1
    = (Ok r, f2) ->
  returncode r = 0 ->
  glob_glob ext (os_path_join tmpdir (py "audio.*")) f2 = (Ok [], f3) ->
  exists (p : pystr) (w' : World),
    transcribe ext req w
    = (Raise (HTTPException 502 (py "No audio file found. stdout: " ++ p)), w')
    /\ is_prefix p (stdout r)
    /\ (length p <= 200)%nat
    /\ trace w'
       = trace w
         ++ [ Mkdtemp (py "/tmp") (py "whisperx-");
              SubprocessRun
                (ytdlp_argv ext (os_path_join tmpdir (py "audio.%(ext)s")) (video_id req))
                120;
              Glob (os_path_join tmpdir (py "audio.*"));
              Rmtree tmpdir ]
    /\ engine_calls (trace w') = engine_calls (trace w).
Proof.
  intros Hlen Hmk Hrun Hrc Hglob.
  exists (slice_to 200 (stdout r)).
  eexists. split; [|split; [apply slice_to_prefix | split; [apply slice_to_length|]]].
  - unfold_handler.
    rewrite (len_11_truthy _ Hlen), Hlen. simpl.
    rewrite Hmk. simpl. rewrite Hrun, Hrc. simpl.
    rewrite Hglob. simpl. reflexivity.
  - simpl. rewrite <- !app_assoc. simpl. split; [reflexivity|].
    rewrite engine_calls_app. simpl. apply app_nil_r.
Qed.

(** X8.  An exception of the downloader call itself (its timeout of 120
    seconds, a missing interpreter), of [glob] or of [getsize] becomes
    [HTTPException(500, str(e))].  In each case the engine is not reached and
    the last call of the request is the [rmtree] of the temp directory. *)
Theorem fetch_exception_is_500
  (req : TranscribeRequest) (w : World) (tmpdir : pystr) (f1 : FS) :
  len (video_id req) = 11 ->
  tempfile_mkdtemp ext (py "/tmp") (py "whisperx-") (fs w) = (Ok tmpdir, f1) ->
  (forall e f2,
     subprocess_run ext
       (ytdlp_argv ext (os_path_join tmpdir (py "audio.%(ext)s")) (video_id req)) 120 f1
       = (Fails e, f2) ->
     fst (transcribe ext req w) = Raise (HTTPException 500 (exc_str e))
     /\ (exists tr, trace (snd (transcribe ext req w)) = tr ++ [Rmtree tmpdir])
     /\ engine_calls (trace (snd (transcribe ext req w))) = engine_calls (trace w))
  /\ (forall r f2 e f3,
        subprocess_run ext
          (ytdlp_argv ext (os_path_join tmpdir (py "audio.%(ext)s")) (video_id req)) 120 f1
          = (Ok r, f2) ->
        returncode r = 0 ->
        glob_glob ext (os_path_join tmpdir (py "audio.*")) f2 = (Fails e, f3) ->
        fst (transcribe ext req w) = Raise (HTTPException 500 (exc_str e))
        /\ (exists tr, trace (snd (transcribe ext req w)) = tr ++ [Rmtree tmpdir])
        /\ engine_calls (trace (snd (transcribe ext req w))) = engine_calls (trace w))
  /\ (forall r f2 audio_path others f3 e f4,
        subprocess_run ext
          (ytdlp_argv ext (os_path_join tmpdir (py "audio.%(ext)s")) (video_id req)) 120 f1
          = (Ok r, f2) ->
        returncode r = 0 ->
        glob_glob ext (os_path_join tmpdir (py "audio.*")) f2
          = (Ok (audio_path :: others), f3) ->
        os_path_getsize ext audio_path f3 = (Fails e, f4) ->
        fst (transcribe ext req w) = Raise (HTTPException 500 (exc_str e))
        /\ (exists tr, trace (snd (transcribe ext req w)) = tr ++ [Rmtree tmpdir])
        /\ engine_calls (trace (snd (transcribe ext req w))) = engine_calls (trace w)).
Proof.
  intros Hlen Hmk.
  split; [|split].
  - intros e f2 Hrun.
    erewrite (transcribe_through_body _ _ _ _ _ _ Hlen Hmk).
    2: { unfold transcribe_body, bind, call. simpl. rewrite Hrun. reflexivity. }
    simpl. split; [reflexivity | split; [eexists; reflexivity|]].
    rewrite <- !app_assoc, engine_calls_app. simpl. apply app_nil_r.
  - intros r f2 e f3 Hrun Hrc Hglob.
    erewrite (transcribe_through_body _ _ _ _ _ _ Hlen Hmk).
    2: { unfold transcribe_body, bind, call. simpl. rewrite Hrun, Hrc. simpl.
         rewrite Hglob. reflexivity. }
    simpl. split; [reflexivity | split; [eexists; reflexivity|]].
    rewrite <- !app_assoc, engine_calls_app. simpl. apply app_nil_r.
  - intros r f2 audio_path others f3 e f4 Hrun Hrc Hglob Hsize.
    erewrite (transcribe_through_body _ _ _ _ _ _ Hlen Hmk).
    2: { unfold transcribe_body, bind, call. simpl. rewrite Hrun, Hrc. simpl.
         rewrite Hglob. simpl. rewrite Hsize. reflexivity. }
    simpl. split; [reflexivity | split; [eexists; reflexivity|]].
    rewrite <- !app_assoc, engine_calls_app. simpl. apply app_nil_r.
Qed.

End MoreFetchErrors.

Lemma missing_audio_file_is_502_witness :
  exists (p : pystr) (w' : World),
    transcribe Stub2.no_file Stub.req Stub.w0
    = (Raise (HTTPException 502 (py "No audio file found. stdout: " ++ p)), w')
    /\ is_prefix p (py "[download] 100%")
    /\ (length p <= 200)%nat
    /\ trace w'
       = [ Mkdtemp (py "/tmp") (py "whisperx-");
           SubprocessRun
             (ytdlp_argv Stub2.no_file
                (os_path_join Stub.tmp (py "audio.%(ext)s")) (video_id Stub.req))
             120;
           Glob (os_path_join Stub.tmp (py "audio.*"));
           Rmtree Stub.tmp ]
    /\ engine_calls (trace w') = [].
Proof.
  apply (missing_audio_file_is_502 Stub2.no_file Stub.req Stub.w0
           Stub.tmp (Stub.tmp :: fs Stub.w0) (Stub.tmp :: fs Stub.w0)
           (Stub.tmp :: fs Stub.w0)
           (mkProc 0 (py "[download] 100%") [])).
  - reflexivity.
  - reflexivity.
  - reflexivity.
  - reflexivity.
  - reflexivity.
Defined.

Lemma fetch_exception_is_500_witness :
  fst (transcribe Stub.download_times_out Stub.req Stub.w0)
  = Raise (HTTPException 500 (py "Command timed out after 120 seconds"))
  /\ (exists tr,
        trace (snd (transcribe Stub.download_times_out Stub.req Stub.w0))
        = tr ++ [Rmtree Stub.tmp])
  /\ engine_calls (trace (snd (transcribe Stub.download_times_out Stub.req Stub.w0)))
     = engine_calls (trace Stub.w0).
Proof.
  apply (proj1 (fetch_exception_is_500 Stub.download_times_out Stub.req Stub.w0
                  Stub.tmp (Stub.tmp :: fs Stub.w0) eq_refl eq_refl)
           (mkExc (py "TimeoutExpired") (py "Command timed out after 120 seconds"))
           (Stub.audio :: Stub.tmp :: fs Stub.w0)).
  reflexivity.
Defined.

(* ------------------------------------------------------------------ *)
(** ** The size check and the engine *)

Section SizeCheck.

Variable ext : Externals.


End SizeCheck.


(* ------------------------------------------------------------------ *)
(** ** All or nothing *)

Lemma consume_complete (g : generator) :
  forall acc out, consume g acc = Return out -> stream_error g = None.
Proof.
  induction g as [| e | s rest IH]; simpl; intros acc out H.
  - reflexivity.
  - discriminate.
  - destruct (shape_segment s) as [seg|e]; [|discriminate].
    eapply IH. exact H.
Qed.

Lemma consume_stream_error (g : generator) (e : PyException) :
  stream_error g = Some e ->
  Forall (fun s => exists seg, shape_segment s = Return seg) (yielded g) ->
  forall acc, consume g acc = Raise (Exception e).
Proof.
  induction g as [| e0 | s rest IH]; simpl; intros He HF acc.
  - discriminate.
  - now injection He as <-.
  - inversion HF as [|s' l' [seg Hseg] HF']; subst.
    rewrite Hseg. now apply IH.
Qed.

Section AllOrNothing.

Variable ext : Externals.

(** A run that returns has consumed the engine's stream to its end. *)
Lemma successful_run_consumed (req : TranscribeRequest) (w w' : World) (body : pyval) :
  transcribe ext req w = (Return body, w') ->
  exists g info out,
    engine_produced ext w' g info
    /\ consume g [] = Return out
    /\ body = VDict [ (py "segments", VList out);
                      (py "duration", VFloat (duration info)) ].
Proof.
  intros H. apply transcribe_inv in H
    as [(_ & [=] & _)
       | [(_ & e & f & _ & [=] & _)
         | (_ & tmpdir & f1 & r1 & w1 & _ & Hb & Hres & ->)]].
  destruct r1 as [a|[s d|e]]; try discriminate Hres. injection Hres as ->.
  apply transcribe_body_success in Hb as (g & info & out & Heng & Hc & ->).
  exists g, info, out. split; [|split; [exact Hc | reflexivity]].
  destruct Heng as (m & a & f & f' & Hin & Hmt).
  exists m, a, f, f'. split; [|exact Hmt].
  simpl. apply in_or_app. now left.
Qed.

(** X10.  There is no partial transcript.  A stream that raises after
    segments that shape well makes the loop raise that very exception,
    whatever was accumulated; and a run that returns a body has consumed the
    engine's stream to its normal end, with as many output segments as the
    engine yielded. *)
Theorem no_partial_transcript :
  (forall g e acc,
     stream_error g = Some e ->
     Forall (fun s => exists seg, shape_segment s = Return seg) (yielded g) ->
     consume g acc = Raise (Exception e))
  /\ (forall (req : TranscribeRequest) (w w' : World) (body : pyval),
        transcribe ext req w = (Return body, w') ->
        exists g info out,
          engine_produced ext w' g info
          /\ stream_error g = None
          /\ body = VDict [ (py "segments", VList out);
                            (py "duration", VFloat (duration info)) ]
          /\ length out = length (yielded g)).
Proof.
  split.
  - intros g e acc He HF. now apply consume_stream_error.
  - intros req w w' body H.
    apply successful_run_consumed in H as (g & info & out & Heng & Hc & ->).
    exists g, info, out. split; [exact Heng|].
    split; [eapply consume_complete; exact Hc|]. split; [reflexivity|].
    apply consume_shapes in Hc as (l & -> & Hl). simpl.
    symmetry. exact (Forall2_length Hl).
Qed.

End AllOrNothing.

Lemma no_partial_transcript_witness :
  consume Stub2.broken [] = Raise (Exception Stub2.decode_error)
  /\ fst (transcribe (Stub.happy Stub2.broken) Stub.req Stub.w0)
     = Raise (HTTPException 500 (py "Decoder failed"))
  /\ exists g info out,
       engine_produced (Stub.happy Expected.mixed) (Expected.final Expected.mixed) g info
       /\ stream_error g = None
       /\ Expected.body [Expected.hello_seg; Expected.blanks_seg; Expected.bare_seg]
          = VDict [ (py "segments", VList out);
                    (py "duration", VFloat (duration info)) ]
       /\ length out = length (yielded g).
Proof.
  split; [|split].
  - apply (proj1 (no_partial_transcript (Stub.happy Stub2.broken))).
    + reflexivity.
    + repeat constructor. eexists. vm_compute. reflexivity.
  - vm_compute. reflexivity.
  - apply (proj2 (no_partial_transcript (Stub.happy Expected.mixed)) Stub.req Stub.w0).
    vm_compute. reflexivity.
Defined.

(* ------------------------------------------------------------------ *)
(** ** Word timestamps *)

Lemma to_int_returns_iff (x : PyFloat.float) :
  (exists z, PyFloat.to_int x = Return z) <-> float_is_finite x = true.
Proof.
  destruct x; simpl; split; intros H; try reflexivity; try discriminate;
    try (now eexists); destruct H as [z H]; discriminate.
Qed.

(** X11.  The words of a segment can be shaped exactly when every word that
    does not strip to the empty string has a finite [start * 1000]: a
    not-a-number or infinite timestamp on such a word makes the list
    comprehension raise, while the timestamp of a blank word is never
    looked at. *)
Theorem shape_words_returns_iff (ws : list Word) :
  (exists l, shape_words ws = Return l)
  <-> Forall (fun w =>
                nonblank w = true ->
                float_is_finite (PyFloat.mul (w_start w) (PyFloat.of_int 1000)) = true)
        ws.
Proof.
  induction ws as [|w rest IH].
  - split; [constructor | now exists []].
  - cbn [shape_words]. unfold shape_word.
    destruct (truthy (strip (word w))) eqn:Ht.
    + destruct (PyFloat.to_int (PyFloat.mul (w_start w) (PyFloat.of_int 1000)))
        as [ms|e] eqn:Hms.
      * split.
        -- intros [l H].
           destruct (shape_words rest) as [l'|e] eqn:Hr; [|discriminate].
           constructor.
           ++ intros _. apply to_int_returns_iff. now exists ms.
           ++ apply IH. now exists l'.
        -- intros H. inversion H as [|w' l' Hw Hrest]; subst.
           apply IH in Hrest as [l' Hl']. rewrite Hl'. now eexists.
      * split.
        -- intros [l H]. discriminate.
        -- intros H. inversion H as [|w' l' Hw Hrest]; subst.
           unfold nonblank in Hw. specialize (Hw Ht).
           apply to_int_returns_iff in Hw as [ms Hms']. congruence.
    + rewrite IH. split.
      * intros H. constructor; [|exact H].
        unfold nonblank. rewrite Ht. discriminate.
      * intros H. now inversion H.
Qed.

Lemma binary_round_aux_sign (sx s : bool) (mx ex : Z) (lx : location) (m : positive) (e : Z) :
  binary_round_aux PyFloat.prec PyFloat.emax sx mx ex lx = S754_finite s m e -> s = sx.
Proof.
  unfold binary_round_aux.
  destruct (shr_fexp _ _ mx ex lx) as [mrs' e'].
  destruct (shr_fexp _ _ _ e' loc_Exact) as [mrs'' e''].
  destruct (shr_m mrs''); try discriminate.
  destruct (e'' <=? PyFloat.emax - PyFloat.prec); [|discriminate].
  now intros [= <- _ _].
Qed.

Lemma mul_1000_nonneg (x : PyFloat.float) (s : bool) (m : positive) (e : Z) :
  float_nonneg x = true ->
  PyFloat.mul x (PyFloat.of_int 1000) = S754_finite s m e -> s = false.
Proof.
  change (PyFloat.of_int 1000) with (S754_finite false 8796093022208000 (-43)).
  destruct x as [sx|sx| |sx mx ex]; simpl; try discriminate.
  destruct sx; [discriminate|]. intros _ H.
  unfold PyFloat.mul, SFmul in H.
  now apply binary_round_aux_sign in H.
Qed.

(** X12.  [startMs] is [int(start * 1000)]: for a finite float product
    [(-1)^s * m * 2^e] it is that value's quotient rounded towards zero, and
    for a start time that is zero or positive it is never negative. *)
Theorem startMs_truncates_towards_zero (w : Word) (v : pyval) :
  shape_word w = Return v ->
  exists ms,
    v = VDict [ (py "text", VStr (strip (word w))); (py "startMs", VInt ms) ]
    /\ (forall s m e,
          PyFloat.mul (w_start w) (PyFloat.of_int 1000) = S754_finite s m e ->
          ms = Z.quot (cond_Zopp s (Zpos m * 2 ^ Z.max e 0)) (2 ^ Z.max (- e) 0))
    /\ (float_nonneg (w_start w) = true -> 0 <= ms).
Proof.
  unfold shape_word.
  destruct (PyFloat.to_int _) as [ms|e0] eqn:Hms; [|discriminate].
  intros [= <-]. exists ms. split; [reflexivity|]. split.
  - intros s m e Hp. rewrite Hp, to_int_truncates in Hms. now injection Hms.
  - intros Hnn.
    destruct (PyFloat.mul (w_start w) (PyFloat.of_int 1000)) as [s|s| |s m e] eqn:Hp;
      simpl in Hms; try discriminate.
    + injection Hms as <-. lia.
    + apply (mul_1000_nonneg _ _ _ _ Hnn) in Hp. subst s.
      injection Hms as <-. simpl.
      destruct e as [|p|p].
      * rewrite Z.shiftl_0_r. lia.
      * apply Z.shiftl_nonneg. lia.
      * apply Z.shiftr_nonneg. lia.
Qed.

Lemma shape_words_returns_iff_witness :
  (exists l, shape_words [ mkWord (py "Hello ") (PyFloat.lit 0 0); Stub2.blank_nan_word ]
             = Return l)
  /\ ~ (exists l, shape_words [ Stub2.nan_word ] = Return l).
Proof.
  split.
  - apply (proj2 (shape_words_returns_iff _)).
    repeat constructor; intros H; try reflexivity. discriminate H.
  - intros H. apply (proj1 (shape_words_returns_iff _)) in H.
    inversion H as [|w l Hw _]; subst.
    specialize (Hw eq_refl). discriminate Hw.
Defined.

Lemma startMs_truncates_towards_zero_witness :
  exists ms,
    VDict [ (py "text", VStr (py "uh")); (py "startMs", VInt 290) ]
    = VDict [ (py "text", VStr (strip (py " uh"))); (py "startMs", VInt ms) ]
    /\ (forall s m e,
          PyFloat.mul (PyFloat.lit 29 2) (PyFloat.of_int 1000) = S754_finite s m e ->
          ms = Z.quot (cond_Zopp s (Zpos m * 2 ^ Z.max e 0)) (2 ^ Z.max (- e) 0))
    /\ (float_nonneg (PyFloat.lit 29 2) = true -> 0 <= ms).
Proof.
  apply (startMs_truncates_towards_zero (mkWord (py " uh") (PyFloat.lit 29 2))).
  vm_compute. reflexivity.
Defined.

(* ------------------------------------------------------------------ *)
(** ** Stripped texts *)

Lemma lstrip_starts_clean (s : pystr) : starts_clean (lstrip s) = true.
Proof.
  induction s as [|c s IH]; simpl; [reflexivity|].
  destruct (isspace c) eqn:E; [exact IH|]. simpl. now rewrite E.
Qed.

Lemma lstrip_suffix (s : pystr) : exists pre, s = pre ++ lstrip s.
Proof.
  induction s as [|c s [pre IH]]; simpl.
  - now exists [].
  - destruct (isspace c).
    + exists (c :: pre). simpl. now rewrite <- IH.
    + now exists [].
Qed.

Lemma starts_clean_app (a b : pystr) : a <> [] -> starts_clean (a ++ b) = starts_clean a.
Proof. destruct a; [contradiction|reflexivity]. Qed.

Lemma lstrip_keeps_ends_clean (s : pystr) :
  ends_clean s = true -> ends_clean (lstrip s) = true.
Proof.
  unfold ends_clean. intros H.
  destruct (lstrip_suffix s) as [pre Hs].
  destruct (lstrip s) as [|c u] eqn:Hl; [reflexivity|].
  rewrite Hs, rev_app_distr, starts_clean_app in H; [exact H|].
  simpl. intros Hn. apply app_eq_nil in Hn as [_ Hn]. discriminate.
Qed.

Lemma strip_clean (s : pystr) :
  starts_clean (strip s) = true /\ ends_clean (strip s) = true.
Proof.
  unfold strip. split; [apply lstrip_starts_clean|].
  apply lstrip_keeps_ends_clean.
  unfold ends_clean, rstrip. rewrite rev_involutive. apply lstrip_starts_clean.
Qed.

Lemma shaped_words_clean (ws : list Word) (l : list pyval) :
  Forall2 word_shaped ws l ->
  Forall (fun t => starts_clean t = true /\ ends_clean t = true) (flat_map word_text l).
Proof.
  induction 1 as [|w v ws l (ms & -> & _ & _) _ IH]; simpl; [constructor|].
  constructor; [apply strip_clean | exact IH].
Qed.

(** X13.  Every string of a shaped segment, its ["text"] and the ["text"]
    of each of its words, neither starts nor ends with a whitespace
    character, and the segment's own text is always among them. *)
Theorem shaped_texts_are_stripped (s : Segment) (seg : pyval) :
  shape_segment s = Return seg ->
  In (strip (text s)) (segment_texts seg)
  /\ Forall (fun t => starts_clean t = true /\ ends_clean t = true) (segment_texts seg).
Proof.
  intros H.
  apply shape_segment_inv in H as [[_ ->] | (ws & l & _ & _ & Hl & ->)].
  - split; [now left|]. repeat constructor; apply strip_clean.
  - split; [now left|].
    change (segment_texts _) with ([strip (text s)] ++ flat_map word_text l).
    constructor; [apply strip_clean|].
    eapply shaped_words_clean. eapply shape_words_inv. exact Hl.
Qed.

Lemma shaped_texts_are_stripped_witness :
  In (strip (text Stub.hello)) (segment_texts Expected.hello_seg)
  /\ Forall (fun t => starts_clean t = true /\ ends_clean t = true)
       (segment_texts Expected.hello_seg).
Proof.
  apply (shaped_texts_are_stripped Stub.hello).
  vm_compute. reflexivity.
Defined.

(* ------------------------------------------------------------------ *)
(** ** What the cleanup leaves alone *)

Lemma rmtree_fs_elsewhere (stuck : pystr -> bool) (p q : pystr) (f : FS) :
  q <> p ->
  startswith (p ++ py "/") q = false ->
  path_exists q (rmtree_fs stuck p f) = path_exists q f.
Proof.
  intros Hne Hout. unfold path_exists, rmtree_fs, in_tree.
  induction f as [|a f IH]; [reflexivity|].
  cbn [filter existsb].
  destruct (pystr_eqb q a) eqn:Hqa.
  - apply pystr_eqb_eq in Hqa. subst a.
    assert (Hpq : pystr_eqb p q = false).
    { destruct (pystr_eqb p q) eqn:E; [|reflexivity].
      apply pystr_eqb_eq in E. now contradiction Hne. }
    rewrite Hpq, Hout. cbn [orb negb existsb]. now rewrite pystr_eqb_refl.
  - destruct (negb (pystr_eqb p a || startswith (p ++ py "/") a) || stuck a).
    + cbn [existsb]. now rewrite Hqa, IH.
    + now rewrite IH.
Qed.

Section Confined.

Variable ext : Externals.

(** X14.  The cleanup removes the temp directory and nothing else: a path
    that is neither the directory nor below it exists after the request
    exactly when it existed at the end of the [try] block. *)
Theorem cleanup_is_confined
  (req : TranscribeRequest) (w : World) (tmpdir : pystr) (f1 : FS) (q : pystr) :
  len (video_id req) = 11 ->
  tempfile_mkdtemp ext (py "/tmp") (py "whisperx-") (fs w) = (Ok tmpdir, f1) ->
  q <> tmpdir ->
  startswith (tmpdir ++ py "/") q = false ->
  path_exists q (fs (snd (transcribe ext req w)))
  = path_exists q
      (fs (snd (transcribe_body ext (video_id req) tmpdir
                  (with_fs f1 (log (Mkdtemp (py "/tmp") (py "whisperx-")) w))))).
Proof.
  intros Hlen Hmk Hne Hout.
  destruct (transcribe_body ext (video_id req) tmpdir _) as [r1 w1] eqn:Hb.
  rewrite (transcribe_through_body ext _ _ _ _ _ _ Hlen Hmk Hb). simpl.
  now apply rmtree_fs_elsewhere.
Qed.

End Confined.

Lemma cleanup_is_confined_witness :
  path_exists (py "/tmp") (fs (snd (transcribe Stub.tiny_audio Stub.req Stub.w0)))
  = path_exists (py "/tmp")
      (fs (snd (transcribe_body Stub.tiny_audio (video_id Stub.req) Stub.tmp
                  (with_fs (Stub.tmp :: fs Stub.w0)
                     (log (Mkdtemp (py "/tmp") (py "whisperx-")) Stub.w0))))).
Proof.
  apply (cleanup_is_confined Stub.tiny_audio Stub.req Stub.w0 Stub.tmp
           (Stub.tmp :: fs Stub.w0) (py "/tmp")).
  - reflexivity.
  - reflexivity.
  - vm_compute. discriminate.
  - reflexivity.
Defined.
